(** * Energy-charts dashboard: the aggregation logic of [src/app.py]

    Prices, loads and solar output are float columns in the source; they are
    modelled as exact rationals [Q].  A pandas cell that holds a float is an
    [fval]: a finite number, NaN, or one of the two infinities, so that the
    division by zero of numpy (x/0 is +-inf, 0/0 is NaN) is written out.

    pandas operations used by the code are modelled as follows:
    - [df.groupby(cols).apply(f).reset_index()] and [.agg(...)] : [groupby_apply],
      one output row per distinct key, keys sorted (pandas' default sort=True);
    - [pd.merge(a, b, on=cols)] : [merge_inner]; [how='left'] : [merge_left];
    - [Series.mean()] (skipna) : [mean] on finite values, [nanmean] on a column
      whose missing cells are [None]. *)

From Stdlib Require Import ZArith QArith Lqa Lia String List Bool.
From Stdlib Require Import Sorting.Permutation Sorting.Sorted.
Import ListNotations.

Open Scope Q_scope.

(** ** Python exceptions and a result type *)

Inductive exn : Type :=
| TypeError
| KeyError
| ParseError.

Inductive except (A : Type) : Type :=
| Ok (a : A)
| Err (e : exn).
Arguments Ok {A} a.
Arguments Err {A} e.

Definition except_bind {A B} (m : except A) (k : A -> except B) : except B :=
  match m with
  | Ok a => k a
  | Err e => Err e
  end.

Notation "x <-? m ;; k" := (except_bind m (fun x => k))
  (at level 61, m at next level, right associativity).

(** ** Float cells *)

Inductive fval : Type :=
| Fin (q : Q)
| NaN
| PInf
| NInf.

Definition Qltb (a b : Q) : bool := negb (Qle_bool b a).

(** A cell is defined when it holds a finite number (not NaN, not inf). *)
Definition is_defined (x : fval) : bool :=
  match x with Fin _ => true | _ => false end.

(** IEEE-754 comparison [==]: NaN is equal to nothing. *)
Definition feq (x y : fval) : bool :=
  match x, y with
  | Fin a, Fin b => Qeq_bool a b
  | PInf, PInf | NInf, NInf => true
  | _, _ => false
  end.

(** IEEE-754 division (zero taken as +0). *)
Definition fdiv (x y : fval) : fval :=
  match x, y with
  | NaN, _ | _, NaN => NaN
  | Fin a, Fin b =>
      if Qeq_bool b 0 then
        (if Qeq_bool a 0 then NaN else if Qltb 0 a then PInf else NInf)
      else Fin (a / b)
  | Fin _, (PInf | NInf) => Fin 0
  | PInf, Fin b => if Qle_bool 0 b then PInf else NInf
  | NInf, Fin b => if Qle_bool 0 b then NInf else PInf
  | (PInf | NInf), (PInf | NInf) => NaN
  end.

(** A missing cell after a left merge is NaN. *)
Definition of_opt (o : option Q) : fval :=
  match o with Some q => Fin q | None => NaN end.

(** ** Sums and means *)

Definition qsum (l : list Q) : Q := fold_right Qplus 0 l.

Definition qlen {A} (l : list A) : Q := inject_Z (Z.of_nat (length l)).

(** [Series.mean()] of a column of finite values; NaN on an empty column. *)
Definition mean (l : list Q) : fval :=
  match l with
  | [] => NaN
  | _ => Fin (qsum l / qlen l)
  end.

Fixpoint somes {A} (l : list (option A)) : list A :=
  match l with
  | [] => []
  | Some a :: l' => a :: somes l'
  | None :: l' => somes l'
  end.

(** [Series.mean()] of a float column whose missing cells are [None]:
    missing cells are skipped (skipna). *)
Definition nanmean (l : list (option Q)) : fval := mean (somes l).

(** ** Sorting prices ([Series.sort_values()], ascending) *)

Fixpoint qinsert (x : Q) (l : list Q) : list Q :=
  match l with
  | [] => [x]
  | y :: l' => if Qle_bool x y then x :: l else y :: qinsert x l'
  end.

Definition qsort (l : list Q) : list Q := fold_right qinsert [] l.

(** [s.iloc[-n:]] and [s.iloc[:n]]. *)
Definition lastn {A} (n : nat) (l : list A) : list A := skipn (length l - n) l.

(** ** Group keys: the tuple of the key columns *)

Definition key := list Z.

Definition key_dec : forall a b : key, {a = b} + {a <> b} := list_eq_dec Z.eq_dec.

Definition key_eqb (a b : key) : bool := if key_dec a b then true else false.

(** Lexicographic order on key tuples. *)
Fixpoint key_ltb (a b : key) : bool :=
  match a, b with
  | [], [] => false
  | [], _ :: _ => true
  | _ :: _, [] => false
  | x :: a', y :: b' => (x <? y)%Z || ((x =? y)%Z && key_ltb a' b')
  end.

Fixpoint insert_key (k : key) (l : list key) : list key :=
  match l with
  | [] => [k]
  | k' :: l' => if key_ltb k k' then k :: l else k' :: insert_key k l'
  end.

Definition sort_keys (l : list key) : list key := fold_right insert_key [] l.

Section Groupby.
Context {A B : Type}.
Variable kf : A -> key.

(** The distinct keys of the frame, sorted. *)
Definition group_keys (l : list A) : list key :=
  sort_keys (nodup key_dec (map kf l)).

(** The rows of one group. *)
Definition group_rows (l : list A) (k : key) : list A :=
  filter (fun a => key_eqb (kf a) k) l.

(** [df.groupby(cols).apply(f).reset_index()]: one row per distinct key. *)
Definition groupby_apply (f : list A -> B) (l : list A) : list (key * B) :=
  map (fun k => (k, f (group_rows l k))) (group_keys l).
End Groupby.

Section Merge.
Context {A B : Type}.

Definition matching (k : key) (l2 : list (key * B)) : list (key * B) :=
  filter (fun kb => key_eqb (fst kb) k) l2.

(** [pd.merge(l1, l2, on=cols)] (inner join). *)
Definition merge_inner (l1 : list (key * A)) (l2 : list (key * B))
  : list (key * A * B) :=
  flat_map (fun ka => map (fun kb => (fst ka, snd ka, snd kb)) (matching (fst ka) l2)) l1.

(** [pd.merge(l1, l2, on=cols, how='left')]: an unmatched left row gets
    missing cells. *)
Definition merge_left (l1 : list (key * A)) (l2 : list (key * B))
  : list (key * A * option B) :=
  flat_map (fun ka =>
    match matching (fst ka) l2 with
    | [] => [(fst ka, snd ka, None)]
    | ms => map (fun kb => (fst ka, snd ka, Some (snd kb))) ms
    end) l1.
End Merge.

(** ** The hourly records (output of [load_data]) *)

Record hourly := mk_hourly {
  datetime : Z;
  residual_load_mw_avg : Q;
  day_ahead_price_eur_mwh : Q;
  solar_mw_avg : Q;
  year : Z;
  month : Z;
  date : Z
}.

Definition ym_key (r : hourly) : key := [year r; month r].
Definition ymd_key (r : hourly) : key := [year r; month r; date r].

Definition prices (g : list hourly) : list Q := map day_ahead_price_eur_mwh g.

(** ** [calculate_monthly_stats] (app.py lines 25-52) *)

(** [daily_spread(g)]: [None] for a day with fewer than 8 rows; otherwise the
    mean of the last 4 sorted prices minus the mean of the first 4 (both
    slices hold 4 finite prices there, so their means are numbers). *)
Definition daily_spread (g : list hourly) : option Q :=
  let sorted_prices := qsort (prices g) in
  if (length sorted_prices <? 8)%nat then None
  else Some (qsum (lastn 4 sorted_prices) / qlen (lastn 4 sorted_prices)
             - qsum (firstn 4 sorted_prices) / qlen (firstn 4 sorted_prices)).

Definition is_some {A} (o : option A) : bool :=
  match o with Some _ => true | None => false end.

(** [df.groupby(['year','month','date']).apply(daily_spread).reset_index(name='spread')].
    When every applied value is [None] (in particular on an empty frame),
    pandas' groupby-apply returns an empty DataFrame (pandas GH9684) instead
    of a Series, and [DataFrame.reset_index] has no [name] argument: the call
    raises [TypeError]. *)
Definition daily_spreads (df : list hourly) : except (list (key * option Q)) :=
  let vs := groupby_apply ymd_key daily_spread df in
  if existsb (fun kv => is_some (snd kv)) vs then Ok vs else Err TypeError.

(** [daily_spreads.groupby(['year','month'])['spread'].mean().reset_index(name='avg_spread')] *)
Definition monthly_spread (ds : list (key * option Q)) : list (key * fval) :=
  groupby_apply (fun kv => firstn 2 (fst kv)) (fun g => nanmean (map snd g)) ds.

Record agg_row := mk_agg {
  avg_price : fval;
  neg_hours : nat;
  avg_price_res_neg : fval;
  avg_price_res_high : fval
}.

(** [monthly_agg(g)] *)
Definition monthly_agg (g : list hourly) : agg_row :=
  {| avg_price := mean (prices g);
     neg_hours := length (filter (fun r => Qltb (day_ahead_price_eur_mwh r) 0) g);
     avg_price_res_neg :=
       mean (prices (filter (fun r => Qltb (residual_load_mw_avg r) 0) g));
     avg_price_res_high :=
       mean (prices (filter (fun r => Qltb 60000 (residual_load_mw_avg r)) g)) |}.

(** A row of the merged table: (year, month), the monthly aggregates and
    [avg_spread]. *)
Record monthly_row := mk_monthly_row {
  mr_key : key;
  mr_agg : agg_row;
  avg_spread : fval
}.

Definition calculate_monthly_stats (df : list hourly) : except (list monthly_row) :=
  ds <-? daily_spreads df ;;
  let msp := monthly_spread ds in
  let mstats := groupby_apply ym_key monthly_agg df in
  Ok (map (fun x => mk_monthly_row (fst (fst x)) (snd (fst x)) (snd x))
          (merge_inner mstats msp)).

(** ** [calculate_capture_prices] (app.py lines 54-80), after the copy and
    the assignment of the [solar_revenue] column: each row comes with its
    [solar_revenue] cell. *)

Definition row_ym (x : hourly * Q) : key := ym_key (fst x).

Record cap_row := mk_cap_row {
  cp_key : key;
  solar_mw_avg_sum : Q;
  solar_revenue_sum : Q;
  price_mean : fval;
  solar_mw_pos : fval;
  solar_rev_pos : fval;
  pv_price : fval;
  pv_price_pos : fval;
  baseload_price : fval;
  capture_rate : fval
}.

(** [.agg({'solar_mw_avg': 'sum', 'solar_revenue': 'sum', 'day_ahead_price_eur_mwh': 'mean'})] *)
Definition agg_all (g : list (hourly * Q)) : Q * Q * fval :=
  (qsum (map (fun x => solar_mw_avg (fst x)) g), qsum (map snd g),
   mean (map (fun x => day_ahead_price_eur_mwh (fst x)) g)).

(** [.agg({'solar_mw_avg': 'sum', 'solar_revenue': 'sum'})] *)
Definition agg_pos (g : list (hourly * Q)) : Q * Q :=
  (qsum (map (fun x => solar_mw_avg (fst x)) g), qsum (map snd g)).

Definition mk_capture (x : key * (Q * Q * fval) * option (Q * Q)) : cap_row :=
  let '(k, (mw, rev, pmean), pos) := x in
  let mw_pos := of_opt (option_map fst pos) in
  let rev_pos := of_opt (option_map snd pos) in
  let pv := fdiv (Fin rev) (Fin mw) in
  let pvp := fdiv rev_pos mw_pos in
  {| cp_key := k; solar_mw_avg_sum := mw; solar_revenue_sum := rev;
     price_mean := pmean; solar_mw_pos := mw_pos; solar_rev_pos := rev_pos;
     pv_price := pv; pv_price_pos := pvp; baseload_price := pmean;
     capture_rate := fdiv pv pmean |}.

Definition capture_table (df : list (hourly * Q)) : list cap_row :=
  let df_pos := filter (fun x => Qle_bool 0 (day_ahead_price_eur_mwh (fst x))) df in
  let monthly_grouped := groupby_apply row_ym agg_all df in
  let monthly_pos := groupby_apply row_ym agg_pos df_pos in
  map mk_capture (merge_left monthly_grouped monthly_pos).

(** [df['solar_mw_avg'] * df['day_ahead_price_eur_mwh']], row by row. *)
Definition solar_revenue_of (r : hourly) : Q :=
  solar_mw_avg r * day_ahead_price_eur_mwh r.

(** [calculate_capture_prices] as a function of the rows of its input. *)
Definition capture_prices (df : list hourly) : list cap_row :=
  capture_table (map (fun r => (r, solar_revenue_of r)) df).

(** ** Yearly overview (app.py lines 121-137) *)

Record year_row := mk_year_row {
  yr_key : key;
  yr_pv_price : fval;
  yr_pv_price_pos : fval;
  yr_baseload_price : fval;
  yr_capture_rate : fval
}.

Definition row_year (x : hourly * Q) : key := [year (fst x)].

(** [pd.DataFrame({...})] aligns the three Series on the union of their
    indexes; the years of [y_pos_grp] are among those of [y_grp], so the
    rows are those of [y_grp] and a year without non-negative prices gets NaN
    in 'PV Price (Pos)'. *)
Definition yearly_overview (df : list hourly) : list year_row :=
  let yearly_df := map (fun r => (r, solar_revenue_of r)) df in
  let yearly_pos := filter (fun x => Qle_bool 0 (day_ahead_price_eur_mwh (fst x))) yearly_df in
  let y_grp := groupby_apply row_year agg_all yearly_df in
  let y_pos_grp := groupby_apply row_year agg_pos yearly_pos in
  map (fun kv =>
         let '(k, (mw, rev, pmean)) := kv in
         let pos := match matching k y_pos_grp with
                    | kb :: _ => Some (snd kb) | [] => None end in
         let pv := fdiv (Fin rev) (Fin mw) in
         {| yr_key := k; yr_pv_price := pv;
            yr_pv_price_pos := fdiv (of_opt (option_map snd pos)) (of_opt (option_map fst pos));
            yr_baseload_price := pmean;
            yr_capture_rate := fdiv pv pmean |}) y_grp.

(** ** Frames in a shared store: [df.copy()] and column assignment *)

(** A DataFrame object: its hourly rows and the numeric columns assigned to
    it after loading. *)
Record frame := mk_frame {
  frows : list hourly;
  fcols : list (string * list Q)
}.

Definition ref := nat.

(** The Python heap of DataFrame objects; a reference is an index. *)
Record heap := mk_heap { cells : list frame }.

(** Statements run against the heap and may raise; a raised exception does
    not roll back the heap. *)
Definition M (A : Type) : Type := heap -> except A * heap.

Definition mret {A} (a : A) : M A := fun h => (Ok a, h).

Definition mbind {A B} (m : M A) (k : A -> M B) : M B :=
  fun h => match m h with
           | (Ok a, h') => k a h'
           | (Err e, h') => (Err e, h')
           end.

Notation "x <- m ;; k" := (mbind m (fun x => k))
  (at level 61, m at next level, right associativity).

Definition lift {A} (e : except A) : M A := fun h => (e, h).

Fixpoint replace_nth {A} (n : nat) (x : A) (l : list A) : list A :=
  match n, l with
  | _, [] => []
  | O, _ :: l' => x :: l'
  | S n', y :: l' => y :: replace_nth n' x l'
  end.

(** Dereferencing an object (a dangling index does not arise from Python
    code; it is reported as an error). *)
Definition deref (r : ref) : M frame :=
  fun h => match nth_error (cells h) r with
           | Some f => (Ok f, h)
           | None => (Err KeyError, h)
           end.

Definition alloc (f : frame) : M ref :=
  fun h => (Ok (length (cells h)), mk_heap (cells h ++ [f])).

Definition store (r : ref) (f : frame) : M unit :=
  fun h => (Ok tt, mk_heap (replace_nth r f (cells h))).

(** [df.copy()]: a new object with the same contents. *)
Definition df_copy (r : ref) : M ref := f <- deref r ;; alloc f.

Fixpoint remove_col (name : string) (cols : list (string * list Q)) : list (string * list Q) :=
  match cols with
  | [] => []
  | (n, c) :: cols' => if String.eqb n name then remove_col name cols' else (n, c) :: remove_col name cols'
  end.

(** [df[name] = col], in place on the object [r]. *)
Definition set_column (r : ref) (name : string) (col : list Q) : M unit :=
  f <- deref r ;;
  store r (mk_frame (frows f) ((name, col) :: remove_col name (fcols f))).

(** [df[name]] for an assigned column; [KeyError] when absent. *)
Fixpoint get_column (cols : list (string * list Q)) (name : string) : except (list Q) :=
  match cols with
  | [] => Err KeyError
  | (n, c) :: cols' => if String.eqb n name then Ok c else get_column cols' name
  end.

(** [calculate_capture_prices(df)] on the object [r].  The filtered
    [df_pos = df[...].copy()] is a further fresh object, read only by the
    grouping inside [capture_table]. *)
Definition calculate_capture_prices (r : ref) : M (list cap_row) :=
  r' <- df_copy r ;;
  f <- deref r' ;;
  _ <- set_column r' "solar_revenue" (map solar_revenue_of (frows f)) ;;
  f' <- deref r' ;;
  rev <- lift (get_column (fcols f') "solar_revenue") ;;
  mret (capture_table (combine (frows f') rev)).

(** [calculate_monthly_stats(df)] on the object [r]: only reads it. *)
Definition calculate_monthly_stats_obj (r : ref) : M (list monthly_row) :=
  f <- deref r ;;
  lift (calculate_monthly_stats (frows f)).

(** ** [load_data] and [main] (app.py lines 14-23 and 82-206) *)

(** A CSV row as parsed by [pd.read_csv]. *)
Record raw_row := mk_raw_row {
  datetime_utc : string;
  raw_residual_load_mw_avg : Q;
  raw_day_ahead_price_eur_mwh : Q;
  raw_solar_mw_avg : Q
}.

Definition INPUT_FILE : string := "hourly_german_residual_load_and_prices_2024_present.csv".

(** The file system: the contents of each existing path. *)
Definition filesystem := string -> option string.

Fixpoint map_except {A B} (f : A -> except B) (l : list A) : except (list B) :=
  match l with
  | [] => Ok []
  | a :: l' => b <-? f a ;; bs <-? map_except f l' ;; Ok (b :: bs)
  end.

(** Messages and results a run of [main] puts on the page. *)
Inductive event : Type :=
| ETitle (s : string)
| EMarkdown (s : string)
| EError (s : string)
| ETabs
| EMonthlyStats (t : list monthly_row)
| ECapturePrices (t : list cap_row)
| EYearly (t : list year_row)
| EScatter.

Definition is_error_event (e : event) : bool :=
  match e with EError _ => true | _ => false end.

Definition is_aggregation_event (e : event) : bool :=
  match e with EMonthlyStats _ | ECapturePrices _ | EYearly _ => true | _ => false end.

(** The memo of the cached [load_data]: [None] before its first successful
    call, then [Some] of the value it returned. *)
Definition data_cache := option (option (list hourly)).

(** The outcome of one run of the script. *)
Record run := mk_run {
  page : list event;
  raised : option exn;
  cache_after : data_cache
}.

(** The page title [st.title("🇩🇪 Energy Charts Dashboard")]. *)
Definition TITLE : string := "🇩🇪 Energy Charts Dashboard".

Section Loader.

(** pandas' CSV reader and timestamp parser and the [dt] accessors. *)
Variable read_csv : string -> except (list raw_row).
Variable to_datetime : string -> except Z.
Variables dt_year dt_month dt_date : Z -> Z.

Definition parse_row (r : raw_row) : except hourly :=
  dt <-? to_datetime (datetime_utc r) ;;
  Ok (mk_hourly dt (raw_residual_load_mw_avg r) (raw_day_ahead_price_eur_mwh r)
        (raw_solar_mw_avg r) (dt_year dt) (dt_month dt) (dt_date dt)).

(** Reading and deriving the columns of an existing file. *)
Definition parse_frame (contents : string) : except (list hourly) :=
  raws <-? read_csv contents ;;
  map_except parse_row raws.

(** The body of [load_data()] (app.py lines 16-23): [None] when the file
    does not exist. *)
Definition load_data_uncached (fs : filesystem) : except (option (list hourly)) :=
  match fs INPUT_FILE with
  | None => Ok None
  | Some contents => df <-? parse_frame contents ;; Ok (Some df)
  end.

(** [@st.cache_data] on [load_data()] (app.py line 14): the Streamlit server
    keeps the value returned by the first call and serves it on every later
    rerun; [load_data] has no argument, so the memo has one entry.  A returned
    value, a frame or [None], is stored; an exception is not. *)
Definition load_data (c : data_cache) (fs : filesystem) : except (option (list hourly)) * data_cache :=
  match c with
  | Some v => (Ok v, c)
  | None =>
      match load_data_uncached fs with
      | Ok v => (Ok v, Some v)
      | Err e => (Err e, None)
      end
  end.

Definition not_found_message : string :=
  "Data file `" ++ INPUT_FILE ++ "` not found. Please run the fetch script.".

(** [main()], one run of the script: the page it produces, the exception it
    raises, if any, and the memo of [load_data] left for the next run.  The
    layout of the three tabs is summarised by the tables they show. *)
Definition main (c : data_cache) (fs : filesystem) : run :=
  let pre := [ETitle TITLE;
              EMarkdown "Analysis of German residual load, electricity prices, and solar capture rates."] in
  let '(ld, c') := load_data c fs in
  match ld with
  | Err e => mk_run pre (Some e) c'
  | Ok None => mk_run (pre ++ [EError not_found_message]) None c'
  | Ok (Some df) =>
      match calculate_monthly_stats df with
      | Err e => mk_run (pre ++ [ETabs]) (Some e) c'
      | Ok stats =>
          mk_run (pre ++ [ETabs; EMonthlyStats stats; ECapturePrices (capture_prices df);
                          EYearly (yearly_overview df); EScatter]) None c'
      end
  end.

End Loader.

(** ** Derived quantities used in the statements *)

(** Rows whose price is non-negative ([df['day_ahead_price_eur_mwh'] >= 0]). *)
Definition nonneg_price (r : hourly) : bool := Qle_bool 0 (day_ahead_price_eur_mwh r).

(** Rows paired with their [solar_revenue] cell. *)
Definition with_revenue (l : list hourly) : list (hourly * Q) :=
  map (fun r => (r, solar_revenue_of r)) l.

(** The day keys (year, month, date) of the frame that fall in month [k], in
    the order of the first groupby. *)
Definition days_of_month (df : list hourly) (k : key) : list key :=
  filter (fun k3 => key_eqb (firstn 2 k3) k) (group_keys ymd_key df).

(** The finite values of a float column. *)
Fixpoint fins (l : list fval) : list Q :=
  match l with
  | [] => []
  | Fin q :: l' => q :: fins l'
  | _ :: l' => fins l'
  end.

(** The equally weighted mean of the monthly pv_price values of a year. *)
Definition mean_of_monthly_pv (df : list hourly) (y : Z) : fval :=
  mean (fins (map pv_price (filter (fun r => key_eqb (firstn 1 (cp_key r)) [y]) (capture_prices df)))).

(** ** Sample frames *)

Definition sample_hour (d : Z) (p s res : Q) (m : Z) : hourly := mk_hourly 0 res p s 2024 m d.

(** One day of 8 hours with the prices 10, 20, ..., 80 in shuffled order. *)
Definition sample_day : list hourly :=
  map (fun p => sample_hour 1 p 1 100 1) [80; 10; 70; 20; 60; 30; 50; 40].

(** January: that day and one more hour with a negative price and a negative
    residual load; February: one hour of high residual load. *)
Definition sample_frame : list hourly :=
  sample_day ++ [sample_hour 2 (-5) 2 (-3) 1; sample_hour 3 7 0 70000 2].


Definition no_cap_row : cap_row := mk_cap_row [] 0 0 NaN NaN NaN NaN NaN NaN NaN.
Definition no_monthly_row : monthly_row := mk_monthly_row [] (mk_agg NaN 0 NaN NaN) NaN.
Definition no_year_row : year_row := mk_year_row [] NaN NaN NaN NaN.

(** ** The page's selections (app.py lines 98-101 and 157-192) *)

(** [sorted(stats_df['year'].unique())], a year written as its one-column
    key [[y]]. *)
Definition stats_years (stats : list monthly_row) : list key :=
  sort_keys (nodup key_dec (map (fun m => firstn 1 (mr_key m)) stats)).

(** [stats_df[stats_df['year'].isin(selected_years)]] *)
Definition show_rows (stats : list monthly_row) (selected_years : list key) : list monthly_row :=
  filter (fun m => existsb (key_eqb (firstn 1 (mr_key m))) selected_years) stats.

(** [list(calendar.month_name)] (C locale). *)
Definition month_name : list string :=
  [""%string; "January"%string; "February"%string; "March"%string; "April"%string;
   "May"%string; "June"%string; "July"%string; "August"%string; "September"%string;
   "October"%string; "November"%string; "December"%string].

(** [l.index(s)]: the first position of [s]; [None] is the ValueError raised
    when [s] is absent. *)
Fixpoint list_index (s : string) (l : list string) : option nat :=
  match l with
  | [] => None
  | x :: l' => if String.eqb x s then Some 0%nat else option_map S (list_index s l')
  end.

(** [df[(df['year'] == y) & (df['month'] == list(calendar.month_name).index(m))]],
    the rows of the scatter plot and of each side of the month comparison. *)
Definition month_selection (df : list hourly) (y : Z) (m : string) : option (list hourly) :=
  match list_index m month_name with
  | None => None
  | Some i => Some (filter (fun r => Z.eqb (year r) y && Z.eqb (month r) (Z.of_nat i)) df)
  end.

(** * General facts: keys, groupby and merges *)

Lemma key_eqb_true (a b : key) : key_eqb a b = true <-> a = b.
Proof. unfold key_eqb; destruct (key_dec a b); split; congruence. Qed.

Lemma key_eqb_refl (a : key) : key_eqb a a = true.
Proof. now apply key_eqb_true. Qed.

Lemma insert_key_perm (k : key) (l : list key) : Permutation (insert_key k l) (k :: l).
Proof.
  induction l as [|k' l IH]; simpl; [reflexivity|].
  destruct (key_ltb k k'); [reflexivity|].
  rewrite IH. apply perm_swap.
Qed.

Lemma sort_keys_perm (l : list key) : Permutation (sort_keys l) l.
Proof.
  induction l as [|k l IH]; simpl; [reflexivity|].
  rewrite insert_key_perm. now apply perm_skip.
Qed.

Section GroupFacts.
Context {A B : Type}.
Variable kf : A -> key.

Lemma in_group_keys (l : list A) (k : key) :
  In k (group_keys kf l) <-> exists a, In a l /\ kf a = k.
Proof.
  unfold group_keys. split.
  - intro H. apply (Permutation_in _ (sort_keys_perm _)) in H.
    apply nodup_In, in_map_iff in H. destruct H as [a [Ha Hin]]. eauto.
  - intros [a [Hin Ha]]. apply (Permutation_in _ (Permutation_sym (sort_keys_perm _))).
    apply nodup_In, in_map_iff. eauto.
Qed.

Lemma group_keys_nodup (l : list A) : NoDup (group_keys kf l).
Proof.
  unfold group_keys. eapply Permutation_NoDup.
  - symmetry. apply sort_keys_perm.
  - apply NoDup_nodup.
Qed.

Lemma in_group_rows (l : list A) (k : key) (a : A) :
  In a (group_rows kf l k) <-> In a l /\ kf a = k.
Proof. unfold group_rows. rewrite filter_In, key_eqb_true. tauto. Qed.

Lemma group_rows_nonempty (l : list A) (k : key) :
  In k (group_keys kf l) -> group_rows kf l k <> [].
Proof.
  intros Hk Hnil. apply in_group_keys in Hk. destruct Hk as [a [Ha Hka]].
  assert (In a (group_rows kf l k)) by (apply in_group_rows; auto).
  rewrite Hnil in H. destruct H.
Qed.

Lemma in_groupby_apply (f : list A -> B) (l : list A) (k : key) (v : B) :
  In (k, v) (groupby_apply kf f l) <-> In k (group_keys kf l) /\ v = f (group_rows kf l k).
Proof.
  unfold groupby_apply. rewrite in_map_iff. split.
  - intros [k' [Heq Hin]]. injection Heq as <- <-. auto.
  - intros [Hin ->]. exists k. auto.
Qed.

End GroupFacts.

Section MergeFacts.
Context {A B : Type}.

Lemma in_matching (k : key) (l2 : list (key * B)) (kb : key * B) :
  In kb (matching k l2) <-> In kb l2 /\ fst kb = k.
Proof. unfold matching. rewrite filter_In, key_eqb_true. tauto. Qed.

Lemma in_merge_inner (l1 : list (key * A)) (l2 : list (key * B)) k a b :
  In (k, a, b) (merge_inner l1 l2) <-> In (k, a) l1 /\ In (k, b) l2.
Proof.
  unfold merge_inner. rewrite in_flat_map. split.
  - intros [[k1 a1] [Hin1 Hin2]]. apply in_map_iff in Hin2.
    destruct Hin2 as [[k2 b2] [Heq Hm]]. apply in_matching in Hm. simpl in *.
    destruct Hm as [Hm Hk]. injection Heq as <- <- <-. subst k2. auto.
  - intros [H1 H2]. exists (k, a). split; [exact H1|].
    apply in_map_iff. exists (k, b). split; [reflexivity|]. apply in_matching. auto.
Qed.

Lemma in_merge_left (l1 : list (key * A)) (l2 : list (key * B)) k a o :
  In (k, a, o) (merge_left l1 l2) ->
  In (k, a) l1 /\
  match o with
  | Some b => In (k, b) l2
  | None => forall b, ~ In (k, b) l2
  end.
Proof.
  unfold merge_left. rewrite in_flat_map. intros [[k1 a1] [Hin1 Hin2]].
  change (fst (k1, a1)) with k1 in Hin2. change (snd (k1, a1)) with a1 in Hin2.
  destruct (matching k1 l2) as [|kb ms] eqn:Hm; cbv beta iota in Hin2.
  - destruct Hin2 as [Heq|[]]. injection Heq as <- <- <-. split; [exact Hin1|].
    intros b Hb. assert (In (k1, b) (matching k1 l2)) by (apply in_matching; auto).
    rewrite Hm in H. destruct H.
  - apply in_map_iff in Hin2. destruct Hin2 as [[k2 b2] [Heq Hin]].
    rewrite <- Hm in Hin. apply in_matching in Hin. simpl in Hin. destruct Hin as [Hin <-].
    injection Heq as <- <- <-. auto.
Qed.

End MergeFacts.

Lemma filter_map_swap {A B} (p : B -> bool) (g : A -> B) (l : list A) :
  filter p (map g l) = map g (filter (fun a => p (g a)) l).
Proof. induction l as [|a l IH]; simpl; [reflexivity|]. destruct (p (g a)); simpl; now rewrite IH. Qed.

Lemma filter_filter_swap {A} (p q : A -> bool) (l : list A) :
  filter p (filter q l) = filter q (filter p l).
Proof.
  induction l as [|a l IH]; simpl; [reflexivity|].
  destruct (q a) eqn:Hq, (p a) eqn:Hp; simpl; rewrite ?Hq, ?Hp; congruence.
Qed.

(** The rows of a group of the frame with its [solar_revenue] cells. *)
Lemma group_rows_with_revenue (df : list hourly) (k : key) :
  group_rows row_ym (map (fun r => (r, solar_revenue_of r)) df) k =
  map (fun r => (r, solar_revenue_of r)) (group_rows ym_key df k).
Proof. unfold group_rows. now rewrite filter_map_swap. Qed.

Lemma group_keys_with_revenue (df : list hourly) :
  group_keys row_ym (map (fun r => (r, solar_revenue_of r)) df) = group_keys ym_key df.
Proof. unfold group_keys. now rewrite map_map. Qed.

(** * The rows of [calculate_capture_prices] *)

Lemma group_rows_filter {A} (kf : A -> key) (p : A -> bool) (l : list A) (k : key) :
  group_rows kf (filter p l) k = filter p (group_rows kf l k).
Proof. unfold group_rows. apply filter_filter_swap. Qed.

Lemma capture_row_shape (df : list hourly) (r : cap_row) :
  In r (capture_prices df) ->
  exists k pos,
    In k (group_keys ym_key df) /\
    r = mk_capture (k, agg_all (with_revenue (group_rows ym_key df k)), pos) /\
    match pos with
    | Some b => b = agg_pos (with_revenue (filter nonneg_price (group_rows ym_key df k)))
    | None => filter nonneg_price (group_rows ym_key df k) = []
    end.
Proof.
  unfold capture_prices, capture_table. intro H.
  apply in_map_iff in H. destruct H as [[[k a] o] [<- Hin]].
  apply in_merge_left in Hin. destruct Hin as [Ha Ho].
  apply in_groupby_apply in Ha. destruct Ha as [Hk ->].
  rewrite group_keys_with_revenue in Hk.
  exists k, o. split; [exact Hk|]. split.
  { now rewrite group_rows_with_revenue. }
  assert (Hpos : filter (fun x => Qle_bool 0 (day_ahead_price_eur_mwh (fst x)))
                   (map (fun r => (r, solar_revenue_of r)) df)
                 = with_revenue (filter nonneg_price df)).
  { unfold with_revenue. now rewrite filter_map_swap. }
  rewrite Hpos in Ho. destruct o as [b|].
  - apply in_groupby_apply in Ho. destruct Ho as [_ ->].
    unfold with_revenue. rewrite group_rows_with_revenue, group_rows_filter. reflexivity.
  - destruct (filter nonneg_price (group_rows ym_key df k)) as [|x xs] eqn:Hf; [reflexivity|].
    exfalso.
    assert (Hx : In x (filter nonneg_price (group_rows ym_key df k))) by (rewrite Hf; left; auto).
    rewrite <- group_rows_filter in Hx. apply in_group_rows in Hx. destruct Hx as [Hx Hkx].
    apply (Ho (agg_pos (group_rows row_ym (with_revenue (filter nonneg_price df)) k))).
    apply in_groupby_apply. split; [|reflexivity].
    unfold with_revenue. rewrite group_keys_with_revenue. apply in_group_keys. eauto.
Qed.

Lemma qsum_solar_with_revenue (l : list hourly) :
  qsum (map (fun x => solar_mw_avg (fst x)) (with_revenue l)) = qsum (map solar_mw_avg l).
Proof. unfold with_revenue. now rewrite map_map. Qed.

Lemma qsum_revenue_with_revenue (l : list hourly) :
  qsum (map snd (with_revenue l)) = qsum (map solar_revenue_of l).
Proof. unfold with_revenue. now rewrite map_map. Qed.

Lemma prices_with_revenue (l : list hourly) :
  map (fun x => day_ahead_price_eur_mwh (fst x)) (with_revenue l) = prices l.
Proof. unfold with_revenue, prices. now rewrite map_map. Qed.

(** Division by a zero denominator never gives a finite number. *)
Lemma fdiv_zero_undefined (a b : Q) : b == 0 -> is_defined (fdiv (Fin a) (Fin b)) = false.
Proof.
  intro Hb. simpl. apply Qeq_bool_iff in Hb. rewrite Hb.
  destruct (Qeq_bool a 0); [reflexivity|]. destruct (Qltb 0 a); reflexivity.
Qed.

Lemma fdiv_nonzero (a b : Q) : ~ b == 0 -> fdiv (Fin a) (Fin b) = Fin (a / b).
Proof.
  intro Hb. simpl. destruct (Qeq_bool b 0) eqn:E; [|reflexivity].
  apply Qeq_bool_iff in E. contradiction.
Qed.

Lemma fdiv_by_zero_undefined (x : fval) (b : Q) :
  b == 0 -> is_defined (fdiv x (Fin b)) = false.
Proof.
  intro Hb. destruct x as [a| | |].
  - now apply fdiv_zero_undefined.
  - reflexivity.
  - simpl. destruct (Qle_bool 0 b); reflexivity.
  - simpl. destruct (Qle_bool 0 b); reflexivity.
Qed.

Lemma fdiv_eq_one (x : fval) (b : Q) :
  feq (fdiv x (Fin b)) (Fin 1) = true <-> feq x (Fin b) = true /\ ~ b == 0.
Proof.
  destruct x as [a| | |]; simpl.
  - destruct (Qeq_bool b 0) eqn:Hb.
    + apply Qeq_bool_iff in Hb. split.
      * destruct (Qeq_bool a 0); [discriminate|]. destruct (Qltb 0 a); discriminate.
      * intros [_ H]. contradiction.
    + assert (Hb' : ~ b == 0) by (intro E; apply Qeq_bool_iff in E; congruence).
      simpl. rewrite !Qeq_bool_iff. split.
      * intro H. split; [|exact Hb'].
        setoid_replace a with ((a / b) * b) by (field; exact Hb').
        rewrite H. ring.
      * intros [H _]. rewrite H. field. exact Hb'.
  - split; [discriminate|]. intros [H _]; discriminate.
  - destruct (Qle_bool 0 b); split; try discriminate; intros [H _]; discriminate.
  - destruct (Qle_bool 0 b); split; try discriminate; intros [H _]; discriminate.
Qed.

Lemma mean_nonempty (l : list Q) : l <> [] -> mean l = Fin (qsum l / qlen l).
Proof. destruct l; [congruence|reflexivity]. Qed.


Lemma qsum_nonneg (l : list Q) : (forall x, In x l -> 0 <= x) -> 0 <= qsum l.
Proof.
  induction l as [|a l IH]; simpl; intro H; [apply Qle_refl|].
  assert (0 <= a) by auto. assert (0 <= qsum l) by auto. lra.
Qed.


Lemma Qltb_true (a b : Q) : Qltb a b = true <-> a < b.
Proof.
  unfold Qltb. rewrite negb_true_iff. split.
  - intro H. apply Qnot_le_lt. intro H'. apply Qle_bool_iff in H'. congruence.
  - intro H. destruct (Qle_bool b a) eqn:E; [|reflexivity].
    apply Qle_bool_iff in E. exfalso. apply (Qlt_not_le _ _ H E).
Qed.

Lemma nonneg_price_true (r : hourly) : nonneg_price r = true <-> 0 <= day_ahead_price_eur_mwh r.
Proof. apply Qle_bool_iff. Qed.

(** * Claims about [calculate_capture_prices] *)

(** C4: in each (year, month) row, pv_price is the sum over the month's rows
    of solar_mw_avg * day_ahead_price_eur_mwh divided by the sum of
    solar_mw_avg (numpy division); it is undefined (NaN or infinite) when
    that denominator is 0. *)
Theorem capture_pv_price (df : list hourly) (r : cap_row) :
  In r (capture_prices df) ->
  let G := group_rows ym_key df (cp_key r) in
  pv_price r = fdiv (Fin (qsum (map solar_revenue_of G))) (Fin (qsum (map solar_mw_avg G))) /\
  (~ qsum (map solar_mw_avg G) == 0 ->
     pv_price r = Fin (qsum (map solar_revenue_of G) / qsum (map solar_mw_avg G))) /\
  (qsum (map solar_mw_avg G) == 0 -> is_defined (pv_price r) = false).
Proof.
  intro H. destruct (capture_row_shape df r H) as [k [pos [_ [-> _]]]].
  cbn [mk_capture agg_all pv_price cp_key].
  rewrite qsum_solar_with_revenue, qsum_revenue_with_revenue.
  split; [reflexivity|]. split.
  - apply fdiv_nonzero.
  - apply fdiv_zero_undefined.
Qed.

(** C5: pv_price_pos is the same ratio over the month's rows whose price is
    >= 0 (negative prices excluded, price 0 included); it is NaN when the
    month has no such row, and undefined when their solar sum is 0. *)
Theorem capture_pv_price_pos (df : list hourly) (r : cap_row) :
  In r (capture_prices df) ->
  let P := filter nonneg_price (group_rows ym_key df (cp_key r)) in
  (forall x, In x P <-> In x df /\ ym_key x = cp_key r /\ 0 <= day_ahead_price_eur_mwh x) /\
  (P = [] -> pv_price_pos r = NaN) /\
  (P <> [] ->
     pv_price_pos r = fdiv (Fin (qsum (map solar_revenue_of P))) (Fin (qsum (map solar_mw_avg P)))) /\
  (P = [] \/ qsum (map solar_mw_avg P) == 0 -> is_defined (pv_price_pos r) = false).
Proof.
  intro H. destruct (capture_row_shape df r H) as [k [pos [_ [-> Hpos]]]].
  cbn [mk_capture agg_all pv_price_pos cp_key].
  set (P := filter nonneg_price (group_rows ym_key df k)) in *.
  assert (HP : forall x, In x P <-> In x df /\ ym_key x = k /\ 0 <= day_ahead_price_eur_mwh x).
  { intro x. unfold P. rewrite filter_In, in_group_rows, nonneg_price_true. tauto. }
  destruct pos as [b|].
  - subst b. cbn [option_map of_opt agg_pos fst snd].
    rewrite qsum_solar_with_revenue, qsum_revenue_with_revenue.
    split; [exact HP|]. split.
    + intro HPnil. rewrite HPnil. reflexivity.
    + split; [reflexivity|].
      intros [HPnil|Hz].
      * rewrite HPnil. reflexivity.
      * now apply fdiv_zero_undefined.
  - cbn [option_map of_opt fdiv]. split; [exact HP|]. split; [reflexivity|].
    split; [intro Hne; contradiction|reflexivity].
Qed.

(** Corrected C6: capture_rate is pv_price divided by baseload_price, the
    mean price of the month, and is undefined when baseload_price is 0;
    capture_rate = 1.0 exactly when pv_price equals baseload_price and
    baseload_price is not 0. *)
Theorem capture_rate_spec (df : list hourly) (r : cap_row) :
  In r (capture_prices df) ->
  let G := group_rows ym_key df (cp_key r) in
  let b := qsum (prices G) / qlen (prices G) in
  baseload_price r = Fin b /\
  capture_rate r = fdiv (pv_price r) (baseload_price r) /\
  (b == 0 -> is_defined (capture_rate r) = false) /\
  (feq (capture_rate r) (Fin 1) = true <-> feq (pv_price r) (baseload_price r) = true /\ ~ b == 0).
Proof.
  intro H. destruct (capture_row_shape df r H) as [k [pos [Hk [-> _]]]].
  cbn [mk_capture agg_all baseload_price capture_rate pv_price cp_key snd].
  rewrite prices_with_revenue, mean_nonempty.
  2: { unfold prices. intro E. apply map_eq_nil in E. revert E. now apply group_rows_nonempty. }
  split; [reflexivity|]. split; [reflexivity|]. split.
  - apply fdiv_by_zero_undefined.
  - apply fdiv_eq_one.
Qed.

(** C6 as stated fails: a month with one hour at price 0 and solar 1 has
    pv_price = baseload_price = 0, and capture_rate = 0/0 is NaN, not 1.0. *)
Lemma capture_rate_one_counterexample :
  let df := [mk_hourly 0 0 0 1 2024 1 1] in
  let r := mk_capture ([2024%Z; 1%Z], (1, 0, Fin 0), Some (1, 0)) in
  In r (capture_prices df) /\
  feq (pv_price r) (baseload_price r) = true /\
  feq (capture_rate r) (Fin 1) = false.
Proof. vm_compute. split; [left; reflexivity|]. split; reflexivity. Qed.





(** * The yearly overview *)

Lemma yearly_row_shape (df : list hourly) (yr : year_row) :
  In yr (yearly_overview df) ->
  exists y, yr_key yr = [y] /\ (exists r, In r df /\ year r = y) /\
    let Y := filter (fun r => Z.eqb (year r) y) df in
    yr_pv_price yr = fdiv (Fin (qsum (map solar_revenue_of Y))) (Fin (qsum (map solar_mw_avg Y))).
Proof.
  unfold yearly_overview. intro H. apply in_map_iff in H.
  destruct H as [[k [[mw rev] pm]] [<- Hin]].
  apply in_groupby_apply in Hin. destruct Hin as [Hk Hv].
  apply in_group_keys in Hk. destruct Hk as [[r0 q0] [Hr0 Hk]].
  apply in_map_iff in Hr0. destruct Hr0 as [r [Eq Hr]]. injection Eq as E1 E2. subst r0 q0.
  unfold row_year in Hk; simpl in Hk. subst k.
  exists (year r). split; [reflexivity|]. split; [exists r; auto|].
  cbn [yr_pv_price]. unfold agg_all in Hv. injection Hv as Hmw Hrev _.
  subst mw rev.
  assert (E : group_rows row_year (map (fun r => (r, solar_revenue_of r)) df) [year r]
              = with_revenue (filter (fun x => Z.eqb (year x) (year r)) df)).
  { unfold group_rows, with_revenue. rewrite filter_map_swap. f_equal.
    apply filter_ext. intro x. unfold row_year, key_eqb. cbn [fst].
    destruct (key_dec [year x] [year r]) as [E|E];
      destruct (Z.eqb_spec (year x) (year r)) as [E'|E']; congruence. }
  rewrite E, qsum_solar_with_revenue, qsum_revenue_with_revenue. reflexivity.
Qed.

(** C7: the yearly pv_price is sum(solar_revenue)/sum(solar_mw_avg) over all
    the hours of that year; it is not the equally weighted mean of the
    monthly pv_price values, and the two differ in general. *)
Theorem yearly_pv_price_recomputed :
  (forall df yr, In yr (yearly_overview df) ->
     exists y, yr_key yr = [y] /\
       let Y := filter (fun r => Z.eqb (year r) y) df in
       yr_pv_price yr = fdiv (Fin (qsum (map solar_revenue_of Y))) (Fin (qsum (map solar_mw_avg Y)))) /\
  (exists df yr y, In yr (yearly_overview df) /\ yr_key yr = [y] /\
     feq (yr_pv_price yr) (mean_of_monthly_pv df y) = false).
Proof.
  split.
  - intros df yr H. destruct (yearly_row_shape df yr H) as [y [Hk [_ Hpv]]]. eauto.
  - exists [mk_hourly 0 0 10 1 2024 1 1; mk_hourly 1 0 30 3 2024 2 1].
    exists (mk_year_row [2024%Z] (Fin (100 # 4)) (Fin (100 # 4)) (Fin (40 # 2)) (Fin (200 # 160))).
    exists 2024%Z. vm_compute. split; [left; reflexivity|]. split; reflexivity.
Qed.

(** * The rows of [calculate_monthly_stats] *)

Lemma daily_spreads_ok (df : list hourly) (ds : list (key * option Q)) :
  daily_spreads df = Ok ds -> ds = groupby_apply ymd_key daily_spread df.
Proof.
  unfold daily_spreads. destruct (existsb _ _); intro H; [now injection H|discriminate].
Qed.

Lemma monthly_spread_value (df : list hourly) (k : key) (b : fval) :
  In (k, b) (monthly_spread (groupby_apply ymd_key daily_spread df)) ->
  b = mean (somes (map (fun k3 => daily_spread (group_rows ymd_key df k3)) (days_of_month df k))).
Proof.
  unfold monthly_spread, nanmean. intro H. apply in_groupby_apply in H. destruct H as [_ ->].
  f_equal. f_equal. unfold groupby_apply, group_rows at 1, days_of_month.
  rewrite filter_map_swap, map_map. reflexivity.
Qed.

Lemma monthly_row_shape (df : list hourly) (out : list monthly_row) (m : monthly_row) :
  calculate_monthly_stats df = Ok out -> In m out ->
  In (mr_key m) (group_keys ym_key df) /\
  mr_agg m = monthly_agg (group_rows ym_key df (mr_key m)) /\
  avg_spread m = mean (somes (map (fun k3 => daily_spread (group_rows ymd_key df k3))
                                  (days_of_month df (mr_key m)))).
Proof.
  unfold calculate_monthly_stats. destruct (daily_spreads df) as [ds|e] eqn:Hds; [|discriminate].
  simpl. intros Hout Hm. injection Hout as <-. apply daily_spreads_ok in Hds. subst ds.
  apply in_map_iff in Hm. destruct Hm as [[[k a] b] [<- Hin]].
  apply in_merge_inner in Hin. destruct Hin as [Ha Hb]. simpl.
  apply in_groupby_apply in Ha. destruct Ha as [Hk ->].
  apply monthly_spread_value in Hb. auto.
Qed.

Lemma monthly_row_exists (df : list hourly) (out : list monthly_row) (x : hourly) :
  calculate_monthly_stats df = Ok out -> In x df ->
  exists m, In m out /\ mr_key m = ym_key x.
Proof.
  unfold calculate_monthly_stats. destruct (daily_spreads df) as [ds|e] eqn:Hds; [|discriminate].
  simpl. intros Hout Hx. injection Hout as <-. apply daily_spreads_ok in Hds. subst ds.
  set (k := ym_key x).
  set (a := monthly_agg (group_rows ym_key df k)).
  set (ds := groupby_apply ymd_key daily_spread df).
  set (b := nanmean (map snd (group_rows (fun kv : key * option Q => firstn 2 (fst kv)) ds k))).
  exists (mk_monthly_row k a b). split; [|reflexivity].
  apply in_map_iff. exists (k, a, b). split; [reflexivity|].
  apply in_merge_inner. split.
  - apply in_groupby_apply. split; [|reflexivity]. apply in_group_keys. eauto.
  - unfold monthly_spread. apply in_groupby_apply. split; [|reflexivity].
    apply in_group_keys. exists (ymd_key x, daily_spread (group_rows ymd_key df (ymd_key x))).
    split; [|reflexivity].
    apply in_groupby_apply. split; [|reflexivity]. apply in_group_keys. eauto.
Qed.

(** * Sorting the prices of a day *)

Lemma qinsert_perm (x : Q) (l : list Q) : Permutation (qinsert x l) (x :: l).
Proof.
  induction l as [|y l IH]; simpl; [reflexivity|].
  destruct (Qle_bool x y); [reflexivity|].
  rewrite IH. apply perm_swap.
Qed.

Lemma qsort_perm (l : list Q) : Permutation (qsort l) l.
Proof.
  induction l as [|x l IH]; simpl; [reflexivity|].
  rewrite qinsert_perm. now apply perm_skip.
Qed.

Lemma qinsert_hdrel (x y : Q) (l : list Q) :
  y <= x -> HdRel Qle y l -> HdRel Qle y (qinsert x l).
Proof.
  intros Hyx Hd. destruct l as [|z l]; simpl.
  - now constructor.
  - destruct (Qle_bool x z); constructor; [exact Hyx|]. now inversion Hd.
Qed.

Lemma qinsert_sorted (x : Q) (l : list Q) : Sorted Qle l -> Sorted Qle (qinsert x l).
Proof.
  intro Hs. induction Hs as [|y l Hs IH Hd]; simpl.
  - repeat constructor.
  - destruct (Qle_bool x y) eqn:Hxy.
    + constructor; [now constructor|]. constructor. now apply Qle_bool_iff.
    + constructor; [exact IH|]. apply qinsert_hdrel; [|exact Hd].
      apply Qlt_le_weak, Qnot_le_lt. intro E. apply Qle_bool_iff in E. congruence.
Qed.

Lemma qsort_sorted (l : list Q) : Sorted Qle (qsort l).
Proof. induction l as [|x l IH]; simpl; [constructor|]. now apply qinsert_sorted. Qed.

Lemma daily_spread_full_day (g : list hourly) :
  (8 <= length g)%nat ->
  let s := qsort (prices g) in
  length (lastn 4 s) = 4%nat /\ length (firstn 4 s) = 4%nat /\
  daily_spread g = Some (qsum (lastn 4 s) / 4 - qsum (firstn 4 s) / 4).
Proof.
  intros Hg s.
  assert (Hs : length s = length g).
  { unfold s. rewrite (Permutation_length (qsort_perm _)). unfold prices. apply length_map. }
  assert (Hl : length (lastn 4 s) = 4%nat).
  { unfold lastn. rewrite length_skipn. lia. }
  assert (Hf : length (firstn 4 s) = 4%nat).
  { rewrite length_firstn. lia. }
  split; [exact Hl|]. split; [exact Hf|].
  unfold daily_spread. fold s.
  replace (length s <? 8)%nat with false by (symmetry; apply Nat.ltb_ge; lia).
  unfold qlen. rewrite Hl, Hf. reflexivity.
Qed.

(** C1: for a day (year, month, date) with at least 8 hourly rows, the
    spread the aggregator computes for it is the mean of the last 4 of its
    prices sorted ascending (the 4 highest) minus the mean of the first 4
    (the 4 lowest). *)
Theorem daily_spread_top4_bottom4 (df : list hourly) (k : key) :
  In k (group_keys ymd_key df) ->
  (8 <= length (group_rows ymd_key df k))%nat ->
  let s := qsort (prices (group_rows ymd_key df k)) in
  Sorted Qle s /\ Permutation s (prices (group_rows ymd_key df k)) /\
  length (lastn 4 s) = 4%nat /\ length (firstn 4 s) = 4%nat /\
  exists ds, daily_spreads df = Ok ds /\
    In (k, Some (qsum (lastn 4 s) / 4 - qsum (firstn 4 s) / 4)) ds.
Proof.
  intros Hk H8 s.
  destruct (daily_spread_full_day _ H8) as [Hl [Hf Hd]]. fold s in Hl, Hf, Hd.
  split; [apply qsort_sorted|]. split; [apply qsort_perm|].
  split; [exact Hl|]. split; [exact Hf|].
  assert (Hin : In (k, Some (qsum (lastn 4 s) / 4 - qsum (firstn 4 s) / 4))
                   (groupby_apply ymd_key daily_spread df)).
  { rewrite <- Hd. apply in_groupby_apply. auto. }
  exists (groupby_apply ymd_key daily_spread df). split; [|exact Hin].
  unfold daily_spreads.
  replace (existsb _ _) with true; [reflexivity|].
  symmetry. apply existsb_exists. eexists; split; [exact Hin|reflexivity].
Qed.

(** A day with fewer than 8 rows has no spread. *)
Lemma daily_spread_short_day (g : list hourly) :
  (length g < 8)%nat -> daily_spread g = None.
Proof.
  intro Hg. unfold daily_spread.
  rewrite (Permutation_length (qsort_perm _)). unfold prices. rewrite length_map.
  replace (length g <? 8)%nat with true by (symmetry; apply Nat.ltb_lt; exact Hg).
  reflexivity.
Qed.

(** When [calculate_monthly_stats] returns, the avg_spread of each month is
    the mean of the defined spreads of its days; it is NaN when none of its
    days has a spread. *)
Lemma monthly_avg_spread (df : list hourly) (out : list monthly_row) (m : monthly_row) :
  calculate_monthly_stats df = Ok out -> In m out ->
  let S := somes (map (fun k3 => daily_spread (group_rows ymd_key df k3)) (days_of_month df (mr_key m))) in
  (S = [] -> avg_spread m = NaN) /\
  (S <> [] -> avg_spread m = Fin (qsum S / qlen S)).
Proof.
  intros Hout Hm S. destruct (monthly_row_shape df out m Hout Hm) as [_ [_ ->]].
  fold S. split; [intros ->; reflexivity|]. apply mean_nonempty.
Qed.

(** C2 (defect): when no day of the frame has 8 rows, the groupby-apply of
    [daily_spread] yields only [None] and the call raises instead of giving
    the month a NaN avg_spread; here a frame of one hour. *)
Theorem monthly_stats_no_full_day_raises :
  calculate_monthly_stats [mk_hourly 0 100 50 0 2024 1 1] = Err TypeError.
Proof. reflexivity. Qed.

(** The same for every frame in which each day has fewer than 8 rows. *)
Lemma monthly_stats_short_days_raise (df : list hourly) :
  (forall k, In k (group_keys ymd_key df) -> (length (group_rows ymd_key df k) < 8)%nat) ->
  calculate_monthly_stats df = Err TypeError.
Proof.
  intro Hshort. unfold calculate_monthly_stats, daily_spreads.
  replace (existsb _ _) with false; [reflexivity|].
  symmetry. apply not_true_iff_false. intro E. apply existsb_exists in E.
  destruct E as [[k v] [Hin Hv]]. apply in_groupby_apply in Hin. destruct Hin as [Hk ->].
  rewrite daily_spread_short_day in Hv by auto. discriminate.
Qed.

(** C3: when [calculate_monthly_stats] returns, every (year, month) of the
    frame has its row; in it avg_price_res_neg (mean price over the hours
    with residual_load_mw_avg < 0) and avg_price_res_high (over the hours
    with residual_load_mw_avg > 60000) are NaN, never 0, when their hours
    are none, and the mean price of those hours otherwise. *)
Theorem monthly_res_prices_null_when_empty (df : list hourly) (out : list monthly_row) :
  calculate_monthly_stats df = Ok out ->
  (forall x, In x df -> exists m, In m out /\ mr_key m = ym_key x) /\
  (forall m, In m out ->
     let G := group_rows ym_key df (mr_key m) in
     let Neg := filter (fun r => Qltb (residual_load_mw_avg r) 0) G in
     let High := filter (fun r => Qltb 60000 (residual_load_mw_avg r)) G in
     (forall x, In x Neg <-> In x G /\ residual_load_mw_avg x < 0) /\
     (forall x, In x High <-> In x G /\ 60000 < residual_load_mw_avg x) /\
     (Neg = [] -> avg_price_res_neg (mr_agg m) = NaN /\ avg_price_res_neg (mr_agg m) <> Fin 0) /\
     (High = [] -> avg_price_res_high (mr_agg m) = NaN /\ avg_price_res_high (mr_agg m) <> Fin 0) /\
     (Neg <> [] -> avg_price_res_neg (mr_agg m) = Fin (qsum (prices Neg) / qlen (prices Neg))) /\
     (High <> [] -> avg_price_res_high (mr_agg m) = Fin (qsum (prices High) / qlen (prices High)))).
Proof.
  intro Hout. split.
  - intros x Hx. now apply (monthly_row_exists df out x).
  - intros m Hm G Neg High.
    destruct (monthly_row_shape df out m Hout Hm) as [_ [Hagg _]].
    rewrite Hagg. cbn [monthly_agg avg_price_res_neg avg_price_res_high]. fold G Neg High.
    split; [intro x; unfold Neg; rewrite filter_In, Qltb_true; tauto|].
    split; [intro x; unfold High; rewrite filter_In, Qltb_true; tauto|].
    split; [intros ->; split; [reflexivity|discriminate]|].
    split; [intros ->; split; [reflexivity|discriminate]|].
    split; intro Hne; apply mean_nonempty; unfold prices; intro E; apply map_eq_nil in E; contradiction.
Qed.

(** * The loader and the page *)

Section CachedLoader.

Variable read_csv : string -> except (list raw_row).
Variable to_datetime : string -> except Z.
Variables dt_year dt_month dt_date : Z -> Z.

Let load := load_data read_csv to_datetime dt_year dt_month dt_date.
Let uncached := load_data_uncached read_csv to_datetime dt_year dt_month dt_date.
Let run_main := main read_csv to_datetime dt_year dt_month dt_date.

(** On a cache miss (the first run of the server, or after the memo is
    cleared) the loader follows the file: [None], stored in the memo, when
    the file is missing, and then one error message and no aggregation; the
    parsed records when it exists. *)
Lemma load_data_cache_miss (fs : filesystem) :
  (fs INPUT_FILE = None ->
     load None fs = (Ok None, Some None) /\
     raised (run_main None fs) = None /\
     length (filter is_error_event (page (run_main None fs))) = 1%nat /\
     filter is_aggregation_event (page (run_main None fs)) = []) /\
  (forall contents df,
     fs INPUT_FILE = Some contents ->
     parse_frame read_csv to_datetime dt_year dt_month dt_date contents = Ok df ->
     load None fs = (Ok (Some df), Some (Some df))).
Proof.
  split.
  - intro Hnone.
    assert (Hl : load None fs = (Ok None, Some None)).
    { unfold load, load_data, load_data_uncached. now rewrite Hnone. }
    unfold run_main, main. fold load. rewrite Hl.
    split; [reflexivity|]. split; [reflexivity|]. split; reflexivity.
  - intros contents df Hc Hp. unfold load, load_data, load_data_uncached. rewrite Hc, Hp. reflexivity.
Qed.

(** C8 (defect): [@st.cache_data] also memoizes the [None] of a run made
    while the file was missing.  A later run, after the file has been written
    and parses to [df], still receives the absent signal, shows the
    not-found message and no table, and keeps [None] in the memo, though the
    file exists and an uncached read returns [df]. *)
Theorem load_data_stale_absent_signal (fs0 fs1 : filesystem) (contents : string) (df : list hourly) :
  fs0 INPUT_FILE = None -> fs1 INPUT_FILE = Some contents ->
  parse_frame read_csv to_datetime dt_year dt_month dt_date contents = Ok df ->
  let r0 := run_main None fs0 in
  let r1 := run_main (cache_after r0) fs1 in
  uncached fs1 = Ok (Some df) /\
  cache_after r0 = Some None /\
  fst (load (cache_after r0) fs1) = Ok None /\
  raised r1 = None /\
  filter is_error_event (page r1) = [EError not_found_message] /\
  filter is_aggregation_event (page r1) = [] /\
  cache_after r1 = Some None.
Proof.
  intros H0 H1 Hp. cbv zeta.
  assert (Hu0 : uncached fs0 = Ok None) by (unfold uncached, load_data_uncached; now rewrite H0).
  assert (Hu1 : uncached fs1 = Ok (Some df))
    by (unfold uncached, load_data_uncached; rewrite H1, Hp; reflexivity).
  assert (Hc0 : cache_after (run_main None fs0) = Some None).
  { unfold run_main, main, load_data. fold uncached. rewrite Hu0. reflexivity. }
  rewrite Hc0. split; [exact Hu1|]. split; [reflexivity|].
  unfold load, run_main. cbn. repeat split.
Qed.

End CachedLoader.

(** * The aggregators and the caller's DataFrame *)

Lemma replace_nth_last {A} (l : list A) (x y : A) :
  replace_nth (length l) x (l ++ [y]) = l ++ [x].
Proof. induction l as [|a l IH]; simpl; [reflexivity|]. now rewrite IH. Qed.

Lemma combine_map_self {A B} (g : A -> B) (l : list A) :
  combine l (map g l) = map (fun x => (x, g x)) l.
Proof. induction l as [|a l IH]; simpl; [reflexivity|]. now rewrite IH. Qed.

(** C9: [calculate_capture_prices] and [calculate_monthly_stats] leave the
    caller's DataFrame object as it was (rows and columns; no solar_revenue
    column appears on it), and their results depend only on its rows. *)
Theorem aggregators_do_not_mutate (h : heap) (r : ref) (f : frame) :
  nth_error (cells h) r = Some f ->
  fst (calculate_capture_prices r h) = Ok (capture_prices (frows f)) /\
  nth_error (cells (snd (calculate_capture_prices r h))) r = Some f /\
  fst (calculate_monthly_stats_obj r h) = calculate_monthly_stats (frows f) /\
  snd (calculate_monthly_stats_obj r h) = h.
Proof.
  destruct h as [cs]. cbn [cells]. intro Hf.
  assert (Hr : (r < length cs)%nat) by (apply nth_error_Some; congruence).
  assert (Hlast : forall g : frame, nth_error (cs ++ [g]) (length cs) = Some g).
  { intro g. rewrite nth_error_app2, Nat.sub_diag by lia. reflexivity. }
  set (f2 := mk_frame (frows f)
               (("solar_revenue"%string, map solar_revenue_of (frows f))
                  :: remove_col "solar_revenue" (fcols f))).
  assert (Hrun : calculate_capture_prices r (mk_heap cs) =
                 (Ok (capture_table (combine (frows f) (map solar_revenue_of (frows f)))),
                  mk_heap (cs ++ [f2]))).
  { unfold calculate_capture_prices, df_copy, set_column, mbind, deref, alloc, store, lift, mret.
    cbn [cells]. rewrite Hf. cbn [cells]. rewrite Hlast. cbn [cells]. rewrite Hlast.
    cbn [cells]. rewrite replace_nth_last. cbn [cells]. rewrite Hlast. cbn [fcols].
    reflexivity. }
  rewrite Hrun. cbn [fst snd cells].
  split; [unfold capture_prices; now rewrite combine_map_self|].
  split; [now rewrite nth_error_app1 by exact Hr|].
  unfold calculate_monthly_stats_obj, mbind, deref, lift. cbn [cells]. rewrite Hf.
  split; reflexivity.
Qed.

(** * The theorems at concrete frames *)

Lemma daily_spread_top4_bottom4_witness :
  In [2024%Z; 1%Z; 1%Z] (group_keys ymd_key sample_day) /\
  (8 <= length (group_rows ymd_key sample_day [2024%Z; 1%Z; 1%Z]))%nat /\
  (exists ds, daily_spreads sample_day = Ok ds /\
     In ([2024%Z; 1%Z; 1%Z],
         Some (qsum (lastn 4 (qsort (prices (group_rows ymd_key sample_day [2024%Z; 1%Z; 1%Z])))) / 4
               - qsum (firstn 4 (qsort (prices (group_rows ymd_key sample_day [2024%Z; 1%Z; 1%Z])))) / 4)) ds) /\
  qsum (lastn 4 (qsort (prices (group_rows ymd_key sample_day [2024%Z; 1%Z; 1%Z])))) / 4
    - qsum (firstn 4 (qsort (prices (group_rows ymd_key sample_day [2024%Z; 1%Z; 1%Z])))) / 4 == 40.
Proof.
  assert (Hk : In [2024%Z; 1%Z; 1%Z] (group_keys ymd_key sample_day)) by (vm_compute; left; reflexivity).
  assert (H8 : (8 <= length (group_rows ymd_key sample_day [2024%Z; 1%Z; 1%Z]))%nat) by (vm_compute; lia).
  destruct (daily_spread_top4_bottom4 sample_day [2024%Z; 1%Z; 1%Z] Hk H8) as [_ [_ [_ [_ Hds]]]].
  split; [exact Hk|]. split; [exact H8|]. split; [exact Hds|]. vm_compute. reflexivity.
Defined.

Lemma monthly_res_prices_null_when_empty_witness :
  exists out, calculate_monthly_stats sample_frame = Ok out /\
    (forall x, In x sample_frame -> exists m, In m out /\ mr_key m = ym_key x) /\
    avg_price_res_neg (mr_agg (nth 1 out no_monthly_row)) = NaN.
Proof.
  set (out := match calculate_monthly_stats sample_frame with Ok o => o | Err _ => [] end).
  assert (E : calculate_monthly_stats sample_frame = Ok out) by (vm_compute; reflexivity).
  exists out. split; [exact E|].
  destruct (monthly_res_prices_null_when_empty sample_frame out E) as [Hex Hrows].
  split; [exact Hex|].
  assert (Hm : In (nth 1 out no_monthly_row) out) by (vm_compute; right; left; reflexivity).
  destruct (Hrows _ Hm) as [_ [_ [Hneg _]]].
  apply Hneg. vm_compute. reflexivity.
Defined.

Lemma capture_pv_price_witness :
  In (hd no_cap_row (capture_prices sample_frame)) (capture_prices sample_frame) /\
  pv_price (hd no_cap_row (capture_prices sample_frame)) =
    fdiv (Fin (qsum (map solar_revenue_of (group_rows ym_key sample_frame [2024%Z; 1%Z]))))
         (Fin (qsum (map solar_mw_avg (group_rows ym_key sample_frame [2024%Z; 1%Z])))).
Proof.
  assert (H : In (hd no_cap_row (capture_prices sample_frame)) (capture_prices sample_frame))
    by (vm_compute; left; reflexivity).
  split; [exact H|]. exact (proj1 (capture_pv_price sample_frame _ H)).
Defined.

Lemma capture_pv_price_pos_witness :
  In (nth 1 (capture_prices sample_frame) no_cap_row) (capture_prices sample_frame) /\
  is_defined (pv_price_pos (nth 1 (capture_prices sample_frame) no_cap_row)) = false.
Proof.
  assert (H : In (nth 1 (capture_prices sample_frame) no_cap_row) (capture_prices sample_frame))
    by (vm_compute; right; left; reflexivity).
  split; [exact H|].
  destruct (capture_pv_price_pos sample_frame _ H) as [_ [_ [_ Hu]]].
  apply Hu. right. vm_compute. reflexivity.
Defined.

Lemma capture_rate_spec_witness :
  In (hd no_cap_row (capture_prices sample_frame)) (capture_prices sample_frame) /\
  (feq (capture_rate (hd no_cap_row (capture_prices sample_frame))) (Fin 1) = true <->
   feq (pv_price (hd no_cap_row (capture_prices sample_frame)))
       (baseload_price (hd no_cap_row (capture_prices sample_frame))) = true /\
   ~ qsum (prices (group_rows ym_key sample_frame [2024%Z; 1%Z]))
       / qlen (prices (group_rows ym_key sample_frame [2024%Z; 1%Z])) == 0).
Proof.
  assert (H : In (hd no_cap_row (capture_prices sample_frame)) (capture_prices sample_frame))
    by (vm_compute; left; reflexivity).
  split; [exact H|].
  exact (proj2 (proj2 (proj2 (capture_rate_spec sample_frame _ H)))).
Defined.

Lemma yearly_pv_price_recomputed_witness :
  In (hd no_year_row (yearly_overview sample_frame)) (yearly_overview sample_frame) /\
  exists y, yr_key (hd no_year_row (yearly_overview sample_frame)) = [y] /\
    yr_pv_price (hd no_year_row (yearly_overview sample_frame)) =
      fdiv (Fin (qsum (map solar_revenue_of (filter (fun r => Z.eqb (year r) y) sample_frame))))
           (Fin (qsum (map solar_mw_avg (filter (fun r => Z.eqb (year r) y) sample_frame)))).
Proof.
  assert (H : In (hd no_year_row (yearly_overview sample_frame)) (yearly_overview sample_frame))
    by (vm_compute; left; reflexivity).
  split; [exact H|].
  exact (proj1 yearly_pv_price_recomputed sample_frame _ H).
Defined.

Lemma load_data_stale_absent_signal_witness :
  load_data_uncached (fun _ => Ok [mk_raw_row "2024-01-01 00:00:00+00:00"%string 100 50 0])
    (fun _ => Ok 0%Z) (fun z => z) (fun z => z) (fun z => z)
    (fun _ => Some "contents"%string) = Ok (Some [mk_hourly 0 100 50 0 0 0 0]) /\
  filter is_error_event
    (page (main (fun _ => Ok [mk_raw_row "2024-01-01 00:00:00+00:00"%string 100 50 0])
                (fun _ => Ok 0%Z) (fun z => z) (fun z => z) (fun z => z)
                (cache_after (main (fun _ => Ok [mk_raw_row "2024-01-01 00:00:00+00:00"%string 100 50 0])
                                   (fun _ => Ok 0%Z) (fun z => z) (fun z => z) (fun z => z)
                                   None (fun _ => None)))
                (fun _ => Some "contents"%string))) = [EError not_found_message].
Proof.
  pose proof (load_data_stale_absent_signal
                (fun _ => Ok [mk_raw_row "2024-01-01 00:00:00+00:00"%string 100 50 0])
                (fun _ => Ok 0%Z) (fun z => z) (fun z => z) (fun z => z)
                (fun _ => None) (fun _ => Some "contents"%string) "contents"%string
                [mk_hourly 0 100 50 0 0 0 0] eq_refl eq_refl eq_refl) as H.
  cbv zeta in H. destruct H as [Hu [_ [_ [_ [He _]]]]]. split; [exact Hu|exact He].
Defined.

Lemma aggregators_do_not_mutate_witness :
  nth_error (cells (snd (calculate_capture_prices 0%nat (mk_heap [mk_frame sample_frame []])))) 0%nat
    = Some (mk_frame sample_frame []) /\
  fst (calculate_capture_prices 0%nat (mk_heap [mk_frame sample_frame []]))
    = Ok (capture_prices sample_frame).
Proof.
  destruct (aggregators_do_not_mutate (mk_heap [mk_frame sample_frame []]) 0%nat
              (mk_frame sample_frame []) eq_refl) as [Hres [Hcell _]].
  split; [exact Hcell|exact Hres].
Defined.


(** * One output row per group *)

Lemma filter_key_in (K : list key) (k : key) :
  NoDup K -> In k K -> filter (fun k' => key_eqb k' k) K = [k].
Proof.
  induction 1 as [|k0 K Hnot Hnd IH]; intro Hin; [destruct Hin|].
  simpl. destruct (key_eqb k0 k) eqn:E.
  - apply key_eqb_true in E. subst k0. f_equal.
    destruct (filter (fun k' => key_eqb k' k) K) as [|k1 ks] eqn:Hf; [reflexivity|].
    exfalso. assert (Hk1 : In k1 (filter (fun k' => key_eqb k' k) K)) by (rewrite Hf; left; auto).
    apply filter_In in Hk1. destruct Hk1 as [Hk1 E1]. apply key_eqb_true in E1. subst. auto.
  - destruct Hin as [->|Hin]; [now rewrite key_eqb_refl in E|]. auto.
Qed.

Lemma filter_key_notin (K : list key) (k : key) :
  ~ In k K -> filter (fun k' => key_eqb k' k) K = [].
Proof.
  induction K as [|k0 K IH]; intro Hn; simpl; [reflexivity|].
  destruct (key_eqb k0 k) eqn:E.
  - apply key_eqb_true in E. subst. exfalso. apply Hn. now left.
  - apply IH. intro H. apply Hn. now right.
Qed.

Lemma matching_groupby {A B} (kf : A -> key) (f : list A -> B) (l : list A) (k : key) :
  matching k (groupby_apply kf f l) =
  if in_dec key_dec k (group_keys kf l) then [(k, f (group_rows kf l k))] else [].
Proof.
  unfold matching, groupby_apply. rewrite filter_map_swap. cbn [fst].
  destruct (in_dec key_dec k (group_keys kf l)) as [Hin|Hn].
  - rewrite filter_key_in by (auto using group_keys_nodup). reflexivity.
  - now rewrite filter_key_notin.
Qed.

Lemma merge_left_single {A B} (l1 : list (key * A)) (l2 : list (key * B)) :
  (forall ka, In ka l1 -> (length (matching (fst ka) l2) <= 1)%nat) ->
  merge_left l1 l2 = map (fun ka => (fst ka, snd ka, option_map snd (hd_error (matching (fst ka) l2)))) l1.
Proof.
  induction l1 as [|ka l1 IH]; intro H; [reflexivity|].
  transitivity ((match matching (fst ka) l2 with
                 | [] => [(fst ka, snd ka, None)]
                 | ms => map (fun kb => (fst ka, snd ka, Some (snd kb))) ms
                 end) ++ merge_left l1 l2); [reflexivity|].
  rewrite IH by (intros; apply H; now right).
  specialize (H ka (or_introl eq_refl)). cbn [map].
  destruct (matching (fst ka) l2) as [|kb [|kb' ms]]; simpl in *; [reflexivity|reflexivity|lia].
Qed.

Lemma merge_inner_keys {A B} (l1 : list (key * A)) (l2 : list (key * B)) :
  (forall ka, In ka l1 -> length (matching (fst ka) l2) = 1%nat) ->
  map (fun x => fst (fst x)) (merge_inner l1 l2) = map fst l1.
Proof.
  induction l1 as [|ka l1 IH]; intro H; [reflexivity|].
  transitivity (map (fun x => fst (fst x))
                  (map (fun kb => (fst ka, snd ka, snd kb)) (matching (fst ka) l2)
                   ++ merge_inner l1 l2)); [reflexivity|].
  rewrite map_app, IH by (intros; apply H; now right).
  specialize (H ka (or_introl eq_refl)). cbn [map].
  destruct (matching (fst ka) l2) as [|kb [|kb' ms]]; simpl in *; [lia|reflexivity|lia].
Qed.

(** [calculate_capture_prices] has one row per (year, month) of the frame, in
    key order, whose sums are those of the month. *)
Lemma capture_prices_rows (df : list hourly) :
  exists pos : key -> option (Q * Q),
    capture_prices df =
    map (fun k => mk_capture (k, agg_all (with_revenue (group_rows ym_key df k)), pos k))
        (group_keys ym_key df).
Proof.
  unfold capture_prices, capture_table.
  set (D := map (fun r => (r, solar_revenue_of r)) df).
  set (mp := groupby_apply row_ym agg_pos
               (filter (fun x => Qle_bool 0 (day_ahead_price_eur_mwh (fst x))) D)).
  exists (fun k => option_map snd (hd_error (matching k mp))).
  rewrite merge_left_single.
  - unfold groupby_apply at 1. rewrite !map_map. unfold D.
    rewrite group_keys_with_revenue. apply map_ext. intro k.
    cbn [fst snd]. now rewrite group_rows_with_revenue.
  - intros ka _. unfold mp. rewrite matching_groupby.
    destruct (in_dec _ _ _); simpl; lia.
Qed.

(** * Spreads are never negative *)

Lemma strongly_sorted_app_le (a b : list Q) :
  StronglySorted Qle (a ++ b) -> forall x y, In x a -> In y b -> x <= y.
Proof.
  induction a as [|z a IH]; simpl; intros Hs x y Hx Hy; [destruct Hx|].
  inversion Hs as [|z' l' Hs' Hall]; subst.
  destruct Hx as [<-|Hx].
  - rewrite Forall_forall in Hall. apply Hall, in_or_app. now right.
  - now apply IH.
Qed.

Lemma qsum_le_pairwise (a b : list Q) :
  length a = length b -> (forall x y, In x a -> In y b -> x <= y) -> qsum a <= qsum b.
Proof.
  revert b. induction a as [|x a IH]; intros [|y b] Hlen H; simpl in *; try discriminate; try apply Qle_refl.
  - assert (x <= y) by auto.
    assert (qsum a <= qsum b) by (apply IH; [lia|intros; auto]).
    lra.
Qed.

Lemma in_skipn {A} (n : nat) (l : list A) (x : A) : In x (skipn n l) -> In x l.
Proof. intro H. rewrite <- (firstn_skipn n l). apply in_or_app. now right. Qed.

(** The 4 lowest prices of a sorted day of at least 8 hours are below its 4
    highest. *)
Lemma bottom4_le_top4 (s : list Q) :
  Sorted Qle s -> (8 <= length s)%nat -> qsum (firstn 4 s) <= qsum (lastn 4 s).
Proof.
  intros Hs Hlen. apply qsum_le_pairwise.
  - unfold lastn. rewrite length_firstn, length_skipn. lia.
  - intros x y Hx Hy.
    apply (strongly_sorted_app_le (firstn 4 s) (skipn 4 s)); [|exact Hx|].
    + rewrite firstn_skipn. apply Sorted_StronglySorted; [exact Qle_trans|exact Hs].
    + unfold lastn in Hy. replace (length s - 4)%nat with ((length s - 8) + 4)%nat in Hy by lia.
      rewrite <- skipn_skipn in Hy. apply (in_skipn _ _ _ Hy).
Qed.

(** The spread of a day, when defined, is at least 0. *)
Theorem daily_spread_nonneg (g : list hourly) (s : Q) :
  daily_spread g = Some s -> 0 <= s.
Proof.
  intro H. destruct (Nat.lt_ge_cases (length g) 8) as [Hlt|Hge].
  - rewrite daily_spread_short_day in H by exact Hlt. discriminate.
  - destruct (daily_spread_full_day g Hge) as [_ [_ Hd]]. rewrite Hd in H.
    injection H as <-.
    set (t := qsort (prices g)).
    assert (Hlen : (8 <= length t)%nat).
    { unfold t. rewrite (Permutation_length (qsort_perm _)). unfold prices. now rewrite length_map. }
    pose proof (bottom4_le_top4 t (qsort_sorted _) Hlen) as Hle.
    assert (Hq : qsum (firstn 4 t) * / 4 <= qsum (lastn 4 t) * / 4).
    { apply Qmult_le_compat_r; [exact Hle|]. apply Qle_bool_iff. reflexivity. }
    unfold Qdiv, Qminus. now apply Qle_minus_iff in Hq.
Qed.

Lemma in_somes {A} (l : list (option A)) (a : A) : In a (somes l) -> In (Some a) l.
Proof.
  induction l as [|[b|] l IH]; simpl; [tauto| |].
  - intros [->|H]; [now left|right; auto].
  - intro H; right; auto.
Qed.

Lemma qlen_pos {A} (l : list A) : l <> [] -> 0 < qlen l.
Proof.
  destruct l as [|a l]; [congruence|]. intros _. unfold qlen, Qlt. simpl. lia.
Qed.

(** When [calculate_monthly_stats] returns, a defined avg_spread is at
    least 0. *)
Theorem monthly_avg_spread_nonneg (df : list hourly) (out : list monthly_row) (m : monthly_row) (a : Q) :
  calculate_monthly_stats df = Ok out -> In m out -> avg_spread m = Fin a -> 0 <= a.
Proof.
  intros Hout Hm Ha. pose proof (monthly_avg_spread df out m Hout Hm) as H. cbv zeta in H.
  set (S := somes (map (fun k3 => daily_spread (group_rows ymd_key df k3))
                       (days_of_month df (mr_key m)))) in H.
  assert (HS : forall x, In x S -> 0 <= x).
  { intros x Hx. unfold S in Hx. apply in_somes, in_map_iff in Hx.
    destruct Hx as [k3 [Hk3 _]]. exact (daily_spread_nonneg _ _ Hk3). }
  destruct H as [Hnil Hne]. destruct S as [|s0 ss].
  - rewrite (Hnil eq_refl) in Ha. discriminate.
  - rewrite Hne in Ha by discriminate. injection Ha as <-.
    apply Qle_shift_div_l; [apply qlen_pos; discriminate|].
    setoid_replace (0 * qlen (s0 :: ss)) with 0 by ring.
    exact (qsum_nonneg (s0 :: ss) HS).
Qed.

(** * One row per month *)

Lemma groupby_apply_keys {A B} (kf : A -> key) (f : list A -> B) (l : list A) :
  map fst (groupby_apply kf f l) = group_keys kf l.
Proof. unfold groupby_apply. rewrite map_map. apply map_id. Qed.

(** [calculate_capture_prices] has exactly one row per (year, month) of its
    input, in sorted key order. *)
Theorem capture_prices_keys (df : list hourly) :
  map cp_key (capture_prices df) = group_keys ym_key df /\
  NoDup (map cp_key (capture_prices df)) /\
  (forall k, In k (map cp_key (capture_prices df)) <-> exists x, In x df /\ ym_key x = k).
Proof.
  destruct (capture_prices_rows df) as [pos E].
  assert (Hk : map cp_key (capture_prices df) = group_keys ym_key df).
  { rewrite E, map_map. transitivity (map (fun k => k) (group_keys ym_key df)).
    - apply map_ext. intro k. reflexivity.
    - apply map_id. }
  rewrite Hk. split; [reflexivity|]. split; [apply group_keys_nodup|]. intro k. apply in_group_keys.
Qed.

(** When [calculate_monthly_stats] returns, its rows are the (year, month)
    groups of the input, one each, in sorted key order: the inner merge with
    the monthly spreads drops no month. *)
Theorem monthly_stats_keys (df : list hourly) (out : list monthly_row) :
  calculate_monthly_stats df = Ok out ->
  map mr_key out = group_keys ym_key df /\ NoDup (map mr_key out).
Proof.
  unfold calculate_monthly_stats. destruct (daily_spreads df) as [ds|e] eqn:Hds; [|discriminate].
  simpl. intro Hout. injection Hout as <-. apply daily_spreads_ok in Hds. subst ds.
  rewrite map_map. cbn [mr_key]. rewrite merge_inner_keys.
  - rewrite groupby_apply_keys. split; [reflexivity|apply group_keys_nodup].
  - intros [k a] Hka. apply in_groupby_apply in Hka. destruct Hka as [Hk _].
    unfold monthly_spread. rewrite matching_groupby. cbn [fst].
    destruct (in_dec _ _ _) as [|Hn]; [reflexivity|exfalso; apply Hn].
    apply in_group_keys in Hk. destruct Hk as [x [Hx <-]].
    apply in_group_keys. exists (ymd_key x, daily_spread (group_rows ymd_key df (ymd_key x))).
    split; [|reflexivity].
    apply in_groupby_apply. split; [|reflexivity]. apply in_group_keys. eauto.
Qed.

(** * Counting negative hours *)

Lemma length_filter_le {A} (p : A -> bool) (l : list A) : (length (filter p l) <= length l)%nat.
Proof. induction l as [|a l IH]; simpl; [lia|]. destruct (p a); simpl; lia. Qed.

Lemma filter_nil_iff {A} (p : A -> bool) (l : list A) :
  filter p l = [] <-> forall x, In x l -> p x = false.
Proof.
  induction l as [|a l IH]; simpl; [tauto|].
  destruct (p a) eqn:Ea; split.
  - discriminate.
  - intro H. rewrite (H a (or_introl eq_refl)) in Ea. discriminate.
  - intros Hf x [<-|Hx]; [exact Ea|]. now apply IH.
  - intro H. apply IH. auto.
Qed.

Lemma Qltb_false (a b : Q) : Qltb a b = false <-> b <= a.
Proof. unfold Qltb. rewrite negb_false_iff. apply Qle_bool_iff. Qed.

(** neg_hours counts at most the hours of the month, and it is 0 exactly
    when no price of the month is below 0. *)
Theorem monthly_neg_hours (df : list hourly) (out : list monthly_row) (m : monthly_row) :
  calculate_monthly_stats df = Ok out -> In m out ->
  let G := group_rows ym_key df (mr_key m) in
  (0 < length G)%nat /\ (neg_hours (mr_agg m) <= length G)%nat /\
  (neg_hours (mr_agg m) = 0%nat <-> forall x, In x G -> 0 <= day_ahead_price_eur_mwh x).
Proof.
  intros Hout Hm G. destruct (monthly_row_shape df out m Hout Hm) as [Hk [Hagg _]].
  rewrite Hagg. cbn [neg_hours monthly_agg]. fold G.
  split; [|split].
  - pose proof (group_rows_nonempty ym_key df _ Hk) as Hne. fold G in Hne.
    destruct G; [congruence|simpl; lia].
  - apply length_filter_le.
  - rewrite length_zero_iff_nil, filter_nil_iff.
    split; intros H x Hx; apply Qltb_false; auto.
Qed.

(** * Months without negative prices *)

Lemma filter_all_true {A} (p : A -> bool) (l : list A) :
  (forall x, In x l -> p x = true) -> filter p l = l.
Proof.
  induction l as [|a l IH]; simpl; intro H; [reflexivity|].
  rewrite (H a (or_introl eq_refl)). f_equal. auto.
Qed.

(** When no price of the month is below 0, the positive-price filter keeps
    every hour and pv_price_pos equals pv_price. *)
Theorem pv_price_pos_eq_when_no_negative (df : list hourly) (r : cap_row) :
  In r (capture_prices df) ->
  (forall x, In x (group_rows ym_key df (cp_key r)) -> 0 <= day_ahead_price_eur_mwh x) ->
  pv_price_pos r = pv_price r.
Proof.
  intros H Hall. destruct (capture_row_shape df r H) as [k [pos [Hk [-> Hpos]]]].
  cbn [mk_capture agg_all cp_key] in Hall.
  assert (HF : filter nonneg_price (group_rows ym_key df k) = group_rows ym_key df k).
  { apply filter_all_true. intros x Hx. apply nonneg_price_true. auto. }
  rewrite HF in Hpos. destruct pos as [b|].
  - subst b. cbn [mk_capture agg_all agg_pos pv_price pv_price_pos option_map of_opt fst snd].
    reflexivity.
  - exfalso. exact (group_rows_nonempty ym_key df k Hk Hpos).
Qed.

(** * The yearly overview *)

Lemma group_rows_year (df : list hourly) (y : Z) :
  group_rows row_year (map (fun r => (r, solar_revenue_of r)) df) [y] =
  with_revenue (filter (fun x => Z.eqb (year x) y) df).
Proof.
  unfold group_rows, with_revenue. rewrite filter_map_swap. f_equal.
  apply filter_ext. intro x. unfold row_year, key_eqb. cbn [fst].
  destruct (key_dec [year x] [y]) as [E|E];
    destruct (Z.eqb_spec (year x) y) as [E'|E']; congruence.
Qed.

(** 'PV Price (Pos)' of a year is NaN when the year has no hour with a
    non-negative price, and otherwise the revenue over the solar sum of those
    hours: [pd.DataFrame] aligns [y_pos_grp] on the years of [y_grp]. *)
Theorem yearly_pv_price_pos (df : list hourly) (yr : year_row) :
  In yr (yearly_overview df) ->
  exists y, yr_key yr = [y] /\
    let P := filter nonneg_price (filter (fun r => Z.eqb (year r) y) df) in
    (P = [] -> yr_pv_price_pos yr = NaN) /\
    (P <> [] -> yr_pv_price_pos yr =
                 fdiv (Fin (qsum (map solar_revenue_of P))) (Fin (qsum (map solar_mw_avg P)))).
Proof.
  unfold yearly_overview. intro H. apply in_map_iff in H.
  destruct H as [[k [[mw rev] pm]] [<- Hin]].
  apply in_groupby_apply in Hin. destruct Hin as [Hk _].
  apply in_group_keys in Hk. destruct Hk as [[r0 q0] [Hr0 Hk]].
  apply in_map_iff in Hr0. destruct Hr0 as [r [Eq Hr]]. injection Eq as E1 E2. subst r0 q0.
  unfold row_year in Hk; simpl in Hk. subst k.
  exists (year r). split; [reflexivity|]. set (P := filter nonneg_price (filter (fun r0 => Z.eqb (year r0) (year r)) df)).
  cbn [yr_pv_price_pos]. rewrite matching_groupby.
  set (Ywr := filter (fun x => Qle_bool 0 (day_ahead_price_eur_mwh (fst x)))
                     (map (fun r => (r, solar_revenue_of r)) df)).
  assert (EG : group_rows row_year Ywr [year r] = with_revenue P).
  { unfold Ywr. rewrite group_rows_filter, group_rows_year. unfold with_revenue, P.
    rewrite filter_map_swap. reflexivity. }
  clearbody P.
  destruct (in_dec key_dec [year r] (group_keys row_year Ywr)) as [Hin|Hn].
  - split.
    + intro HP. exfalso. apply (group_rows_nonempty row_year Ywr _ Hin).
      rewrite EG, HP. reflexivity.
    + intros _. cbn. rewrite EG.
      unfold agg_pos. cbn [of_opt option_map fst snd].
      rewrite qsum_solar_with_revenue, qsum_revenue_with_revenue. reflexivity.
  - split; [reflexivity|]. intro HP. exfalso. apply Hn.
    destruct P as [|x P']; [congruence|].
    apply in_group_keys. exists (x, solar_revenue_of x).
    assert (Hx : In (x, solar_revenue_of x) (group_rows row_year Ywr [year r])).
    { rewrite EG. now left. }
    apply in_group_rows in Hx. exact Hx.
Qed.

(** * Loading the data and the page *)

Lemma map_except_err {A B} (f : A -> except B) (l : list A) (a : A) (e : exn) :
  In a l -> f a = Err e -> exists e', map_except f l = Err e'.
Proof.
  induction l as [|x l IH]; intros Ha Hf; [destruct Ha|].
  simpl. destruct Ha as [->|Ha].
  - rewrite Hf. now exists e.
  - destruct (f x) as [b|e0]; simpl; [|now exists e0].
    destruct (IH Ha Hf) as [e' ->]. now exists e'.
Qed.

Section LoaderFacts.

Variable read_csv : string -> except (list raw_row).
Variable to_datetime : string -> except Z.
Variables dt_year dt_month dt_date : Z -> Z.

(** On a cache miss, when the file exists and is read but one timestamp does
    not parse, [load_data] raises, nothing is memoized (the next run reads the
    file again), [main] raises and the page shows no error message and no
    table. *)
Theorem main_raises_on_bad_timestamp (fs : filesystem) (c : string) (raws : list raw_row)
    (r : raw_row) (e : exn) :
  fs INPUT_FILE = Some c -> read_csv c = Ok raws -> In r raws ->
  to_datetime (datetime_utc r) = Err e ->
  exists e', load_data read_csv to_datetime dt_year dt_month dt_date None fs = (Err e', None) /\
    raised (main read_csv to_datetime dt_year dt_month dt_date None fs) = Some e' /\
    cache_after (main read_csv to_datetime dt_year dt_month dt_date None fs) = None /\
    filter is_error_event (page (main read_csv to_datetime dt_year dt_month dt_date None fs)) = [] /\
    filter is_aggregation_event (page (main read_csv to_datetime dt_year dt_month dt_date None fs)) = [].
Proof.
  intros Hfs Hcsv Hr Hdt.
  assert (Hp : parse_row to_datetime dt_year dt_month dt_date r = Err e).
  { unfold parse_row. now rewrite Hdt. }
  destruct (map_except_err _ raws r e Hr Hp) as [e' He'].
  assert (Hl : load_data read_csv to_datetime dt_year dt_month dt_date None fs = (Err e', None)).
  { unfold load_data, load_data_uncached. rewrite Hfs. unfold parse_frame. rewrite Hcsv. simpl.
    now rewrite He'. }
  exists e'. split; [exact Hl|]. unfold main. rewrite Hl. simpl. auto.
Qed.

(** Whatever the memo holds, the page never shows the missing-file error
    together with a table. *)
Theorem main_error_excludes_tables (c : data_cache) (fs : filesystem) :
  filter is_error_event (page (main read_csv to_datetime dt_year dt_month dt_date c fs)) = [] \/
  filter is_aggregation_event (page (main read_csv to_datetime dt_year dt_month dt_date c fs)) = [].
Proof.
  unfold main. destruct (load_data _ _ _ _ _ c fs) as [[[df|]|e] c']; simpl; auto.
  destruct (calculate_monthly_stats df); simpl; auto.
Qed.

End LoaderFacts.

(** * The page's selections *)

(** With the default of the year multiselect (every year of the table), the
    monthly table shows every row; the year list has no duplicates and holds
    exactly the years of the rows. *)
Theorem show_rows_default (stats : list monthly_row) :
  show_rows stats (stats_years stats) = stats /\ NoDup (stats_years stats) /\
  (forall k, In k (stats_years stats) <-> exists m, In m stats /\ firstn 1 (mr_key m) = k).
Proof.
  assert (Hin : forall k, In k (stats_years stats) <-> exists m, In m stats /\ firstn 1 (mr_key m) = k).
  { intro k. unfold stats_years. split.
    - intro H. apply (Permutation_in _ (sort_keys_perm _)), nodup_In, in_map_iff in H.
      destruct H as [m [<- Hm]]. eauto.
    - intros [m [Hm <-]]. apply (Permutation_in _ (Permutation_sym (sort_keys_perm _))).
      apply nodup_In, in_map_iff. eauto. }
  split; [|split; [|exact Hin]].
  - unfold show_rows. apply filter_all_true. intros m Hm. apply existsb_exists.
    exists (firstn 1 (mr_key m)). split; [apply Hin; eauto|apply key_eqb_refl].
  - unfold stats_years. eapply Permutation_NoDup; [apply Permutation_sym, sort_keys_perm|apply NoDup_nodup].
Qed.

Lemma nth_tl_month_name (n : nat) :
  (n < 12)%nat -> list_index (nth (S n) month_name ""%string) month_name = Some (S n).
Proof. intro H. do 12 (destruct n as [|n]; [reflexivity|]). lia. Qed.

(** Every option of the month select boxes maps to its month number 1..12
    (no ValueError), and selects the rows of that year and month; the
    selection is empty ("No data for selection.") exactly when the frame has
    no row of that month. *)
Theorem month_selection_options (df : list hourly) (y : Z) (m : string) :
  In m (tl month_name) ->
  exists i, (1 <= i <= 12)%nat /\ nth i month_name ""%string = m /\
    month_selection df y m =
      Some (filter (fun r => Z.eqb (year r) y && Z.eqb (month r) (Z.of_nat i)) df) /\
    (month_selection df y m = Some [] <->
       forall r, In r df -> year r = y -> month r <> Z.of_nat i).
Proof.
  intro Hm. apply (In_nth _ _ ""%string) in Hm. destruct Hm as [n [Hn Hnth]].
  change (length (tl month_name)) with 12%nat in Hn.
  change (nth n (tl month_name) ""%string) with (nth (S n) month_name ""%string) in Hnth.
  exists (S n). split; [lia|]. split; [exact Hnth|].
  assert (Hs : month_selection df y m =
               Some (filter (fun r => Z.eqb (year r) y && Z.eqb (month r) (Z.of_nat (S n))) df)).
  { unfold month_selection. rewrite <- Hnth, nth_tl_month_name by exact Hn. reflexivity. }
  split; [exact Hs|]. rewrite Hs. split.
  - intros H r Hr Hy Hmo. injection H as H. rewrite filter_nil_iff in H.
    specialize (H r Hr). rewrite Hy, Hmo, !Z.eqb_refl in H. discriminate.
  - intro H. f_equal. apply filter_nil_iff. intros r Hr.
    destruct (Z.eqb_spec (year r) y) as [E1|E1];
      [destruct (Z.eqb_spec (month r) (Z.of_nat (S n))) as [E2|E2]|]; simpl;
      [exfalso; exact (H r Hr E1 E2)|reflexivity|reflexivity].
Qed.

(** * The further theorems at concrete inputs *)

Lemma monthly_stats_keys_witness :
  exists out, calculate_monthly_stats sample_frame = Ok out /\
    map mr_key out = group_keys ym_key sample_frame /\ NoDup (map mr_key out).
Proof.
  set (out := match calculate_monthly_stats sample_frame with Ok o => o | Err _ => [] end).
  assert (E : calculate_monthly_stats sample_frame = Ok out) by (vm_compute; reflexivity).
  exists out. split; [exact E|]. exact (monthly_stats_keys sample_frame out E).
Defined.

Lemma daily_spread_nonneg_witness : exists s, daily_spread sample_day = Some s /\ 0 <= s.
Proof.
  set (s := match daily_spread sample_day with Some s => s | None => 0 end).
  assert (E : daily_spread sample_day = Some s) by (vm_compute; reflexivity).
  exists s. split; [exact E|exact (daily_spread_nonneg sample_day s E)].
Defined.

Lemma monthly_avg_spread_nonneg_witness :
  exists out a, calculate_monthly_stats sample_frame = Ok out /\
    In (hd no_monthly_row out) out /\ avg_spread (hd no_monthly_row out) = Fin a /\ 0 <= a.
Proof.
  set (out := match calculate_monthly_stats sample_frame with Ok o => o | Err _ => [] end).
  assert (E : calculate_monthly_stats sample_frame = Ok out) by (vm_compute; reflexivity).
  set (a := match avg_spread (hd no_monthly_row out) with Fin q => q | _ => 0 end).
  assert (Hm : In (hd no_monthly_row out) out) by (vm_compute; left; reflexivity).
  assert (Ha : avg_spread (hd no_monthly_row out) = Fin a) by (vm_compute; reflexivity).
  exists out, a. split; [exact E|]. split; [exact Hm|]. split; [exact Ha|].
  exact (monthly_avg_spread_nonneg sample_frame out _ a E Hm Ha).
Defined.

Lemma monthly_neg_hours_witness :
  exists out, calculate_monthly_stats sample_frame = Ok out /\
    In (hd no_monthly_row out) out /\
    neg_hours (mr_agg (hd no_monthly_row out)) = 1%nat /\
    (neg_hours (mr_agg (hd no_monthly_row out)) <=
       length (group_rows ym_key sample_frame (mr_key (hd no_monthly_row out))))%nat.
Proof.
  set (out := match calculate_monthly_stats sample_frame with Ok o => o | Err _ => [] end).
  assert (E : calculate_monthly_stats sample_frame = Ok out) by (vm_compute; reflexivity).
  assert (Hm : In (hd no_monthly_row out) out) by (vm_compute; left; reflexivity).
  exists out. split; [exact E|]. split; [exact Hm|]. split; [vm_compute; reflexivity|].
  destruct (monthly_neg_hours sample_frame out _ E Hm) as [_ [Hle _]]. exact Hle.
Defined.

Lemma pv_price_pos_eq_when_no_negative_witness :
  In (nth 1 (capture_prices sample_frame) no_cap_row) (capture_prices sample_frame) /\
  (forall x, In x (group_rows ym_key sample_frame (cp_key (nth 1 (capture_prices sample_frame) no_cap_row))) ->
     0 <= day_ahead_price_eur_mwh x) /\
  pv_price_pos (nth 1 (capture_prices sample_frame) no_cap_row) =
    pv_price (nth 1 (capture_prices sample_frame) no_cap_row).
Proof.
  assert (H : In (nth 1 (capture_prices sample_frame) no_cap_row) (capture_prices sample_frame))
    by (vm_compute; right; left; reflexivity).
  assert (Hall : forall x, In x (group_rows ym_key sample_frame
                                (cp_key (nth 1 (capture_prices sample_frame) no_cap_row))) ->
                   0 <= day_ahead_price_eur_mwh x).
  { intros x Hx. vm_compute in Hx. destruct Hx as [<-|[]].
    apply Qle_bool_iff. vm_compute. reflexivity. }
  split; [exact H|]. split; [exact Hall|].
  exact (pv_price_pos_eq_when_no_negative sample_frame _ H Hall).
Defined.

Lemma yearly_pv_price_pos_witness :
  In (hd no_year_row (yearly_overview sample_frame)) (yearly_overview sample_frame) /\
  exists y, yr_key (hd no_year_row (yearly_overview sample_frame)) = [y] /\
    let P := filter nonneg_price (filter (fun r => Z.eqb (year r) y) sample_frame) in
    (P = [] -> yr_pv_price_pos (hd no_year_row (yearly_overview sample_frame)) = NaN) /\
    (P <> [] -> yr_pv_price_pos (hd no_year_row (yearly_overview sample_frame)) =
                 fdiv (Fin (qsum (map solar_revenue_of P))) (Fin (qsum (map solar_mw_avg P)))).
Proof.
  assert (H : In (hd no_year_row (yearly_overview sample_frame)) (yearly_overview sample_frame))
    by (vm_compute; left; reflexivity).
  split; [exact H|]. exact (yearly_pv_price_pos sample_frame _ H).
Defined.

Lemma main_raises_on_bad_timestamp_witness :
  exists e',
    raised (main (fun _ => Ok [mk_raw_row "2024-13-01"%string 100 50 0]) (fun _ => Err ParseError)
              (fun z => z) (fun z => z) (fun z => z) None (fun _ => Some "contents"%string)) = Some e' /\
    cache_after (main (fun _ => Ok [mk_raw_row "2024-13-01"%string 100 50 0]) (fun _ => Err ParseError)
              (fun z => z) (fun z => z) (fun z => z) None (fun _ => Some "contents"%string)) = None.
Proof.
  destruct (main_raises_on_bad_timestamp
              (fun _ => Ok [mk_raw_row "2024-13-01"%string 100 50 0]) (fun _ => Err ParseError)
              (fun z => z) (fun z => z) (fun z => z) (fun _ => Some "contents"%string)
              "contents"%string [mk_raw_row "2024-13-01"%string 100 50 0]
              (mk_raw_row "2024-13-01"%string 100 50 0) ParseError
              eq_refl eq_refl (or_introl eq_refl) eq_refl) as [e' [_ [Hs [Hc _]]]].
  exists e'. split; [exact Hs|exact Hc].
Defined.

Lemma month_selection_options_witness :
  In "March"%string (tl month_name) /\
  exists i, (1 <= i <= 12)%nat /\ nth i month_name ""%string = "March"%string /\
    month_selection sample_frame 2024%Z "March"%string =
      Some (filter (fun r => Z.eqb (year r) 2024%Z && Z.eqb (month r) (Z.of_nat i)) sample_frame) /\
    (month_selection sample_frame 2024%Z "March"%string = Some [] <->
       forall r, In r sample_frame -> year r = 2024%Z -> month r <> Z.of_nat i).
Proof.
  assert (H : In "March"%string (tl month_name)) by (vm_compute; right; right; left; reflexivity).
  split; [exact H|]. exact (month_selection_options sample_frame 2024%Z "March"%string H).
Defined.
